(** * storage_media: USB storage probing and correlation

    A shallow embedding of [storage_media.py] and the properties of its
    probes, of the correlation step and of the digest.

    Text is a list of characters; a character is a code point below 256.
    Python exceptions are values of [exn], carried by the result type
    [res]; the operating system (files, sysfs links, external commands)
    is an interface [OS] over an abstract world state. *)

From Stdlib Require Import Ascii String ZArith Lia Bool List.
From Stdlib Require DecimalPos.
Import ListNotations.

Set Implicit Arguments.

(** ** Text *)

Definition str := list ascii.

Definition lit (s : string) : str := list_ascii_of_string s.

Definition str_eqb (a b : str) : bool :=
  if list_eq_dec ascii_dec a b then true else false.

Definition nl : ascii := ascii_of_nat 10.

(** ** Exceptions and results *)

Inductive exn : Set :=
| IndexError
| ValueError
| TypeError
| OverflowError
| OSError
| CalledProcessError.

Inductive res (A : Type) : Type :=
| Ok (a : A)
| Raise (e : exn).

Arguments Ok {A} a.
Arguments Raise {A} e.

Definition bind {A B : Type} (m : res A) (k : A -> res B) : res B :=
  match m with
  | Ok a => k a
  | Raise e => Raise e
  end.

Notation "x <- m ;; k" := (bind m (fun x => k))
  (at level 61, m at next level, right associativity).

Definition is_ok {A : Type} (m : res A) : bool :=
  match m with Ok _ => true | Raise _ => false end.

(** ** Python built-ins used by the module *)

Module Py.

(** [str.isspace] on one character, for code points below 256. *)
Definition isspace (c : ascii) : bool :=
  let n := N_of_ascii c in
  ((9 <=? n) && (n <=? 13) || (28 <=? n) && (n <=? 32)
   || (n =? 133) || (n =? 160))%N.

(** [s.split()]: the maximal runs of non-space characters.  [words_aux]
    returns the run in progress at the head of [s] and the runs after it. *)
Fixpoint words_aux (s : str) : str * list str :=
  match s with
  | [] => ([], [])
  | c :: s' =>
      let (w, ws) := words_aux s' in
      if isspace c
      then ([], match w with [] => ws | _ :: _ => w :: ws end)
      else (c :: w, ws)
  end.

Definition split (s : str) : list str :=
  let (w, ws) := words_aux s in
  match w with [] => ws | _ :: _ => w :: ws end.

(** [s.split(sep)] for a one-character separator: never an empty list. *)
Fixpoint split_on (sep : ascii) (s : str) : list str :=
  match s with
  | [] => [[]]
  | c :: s' =>
      if Ascii.eqb c sep then [] :: split_on sep s'
      else match split_on sep s' with
           | l :: ls => (c :: l) :: ls
           | [] => [[c]]
           end
  end.

Fixpoint lstrip (s : str) : str :=
  match s with
  | [] => []
  | c :: s' => if isspace c then lstrip s' else s
  end.

Definition rstrip (s : str) : str := rev (lstrip (rev s)).

Definition strip (s : str) : str := rstrip (lstrip s).

(** [xs[i]] for [i >= 0] and [xs[-k]] for [k >= 1]. *)
Definition index {A : Type} (xs : list A) (i : nat) : res A :=
  match nth_error xs i with
  | Some x => Ok x
  | None => Raise IndexError
  end.

Definition index_neg {A : Type} (xs : list A) (k : nat) : res A :=
  match k with
  | O => Raise IndexError
  | S k' => index (rev xs) k'
  end.

Fixpoint startswith (p s : str) : bool :=
  match p, s with
  | [], _ => true
  | _ :: _, [] => false
  | a :: p', b :: s' => Ascii.eqb a b && startswith p' s'
  end.

(** [s.find(sub)]: the lowest index where [sub] occurs, or -1. *)
Fixpoint find_at (sub s : str) (i : Z) {struct s} : Z :=
  match s with
  | [] => if startswith sub [] then i else (-1)%Z
  | _ :: s' => if startswith sub s then i else find_at sub s' (i + 1)%Z
  end.

Definition find (s sub : str) : Z := find_at sub s 0%Z.

(** [os.path.basename]: what follows the last slash. *)
Fixpoint basename_aux (s : str) : str * bool :=
  match s with
  | [] => ([], false)
  | c :: s' =>
      let (b, seen) := basename_aux s' in
      if seen then (b, true)
      else if Ascii.eqb c "/" then (b, true) else (c :: b, false)
  end.

Definition basename (p : str) : str := fst (basename_aux p).

(** [f.readlines()]: the lines of a text, each with its newline kept. *)
Fixpoint readlines (s : str) : list str :=
  match s with
  | [] => []
  | c :: s' =>
      if Ascii.eqb c nl then [c] :: readlines s'
      else match readlines s' with
           | l :: ls => (c :: l) :: ls
           | [] => [[c]]
           end
  end.

(** [int(s)] in base 10: surrounding white space, an optional sign, then
    digits, with single underscores allowed between digits.  Integers
    are unbounded; the cap that recent interpreters put on the number of
    digits of such a conversion is left out. *)
Definition digit_val (c : ascii) : option Z :=
  let n := N_of_ascii c in
  if ((48 <=? n) && (n <=? 57))%N then Some (Z.of_N n - 48)%Z else None.

Fixpoint digits_val (acc : Z) (after_digit : bool) (s : str) : option Z :=
  match s with
  | [] => if after_digit then Some acc else None
  | c :: s' =>
      match digit_val c with
      | Some d => digits_val (10 * acc + d)%Z true s'
      | None =>
          if Ascii.eqb c "_" && after_digit then digits_val acc false s'
          else None
      end
  end.

Definition int (s : str) : res Z :=
  let body (neg : bool) (ds : str) : res Z :=
    match digits_val 0%Z false ds with
    | Some n => Ok (if neg then (- n)%Z else n)
    | None => Raise ValueError
    end in
  match strip s with
  | c :: ds =>
      if Ascii.eqb c "-" then body true ds
      else if Ascii.eqb c "+" then body false ds
      else body false (c :: ds)
  | [] => Raise ValueError
  end.

(** [str(n)] for an integer. *)
Fixpoint uint_digits (u : Decimal.uint) : str :=
  match u with
  | Decimal.Nil => []
  | Decimal.D0 u' => "0"%char :: uint_digits u'
  | Decimal.D1 u' => "1"%char :: uint_digits u'
  | Decimal.D2 u' => "2"%char :: uint_digits u'
  | Decimal.D3 u' => "3"%char :: uint_digits u'
  | Decimal.D4 u' => "4"%char :: uint_digits u'
  | Decimal.D5 u' => "5"%char :: uint_digits u'
  | Decimal.D6 u' => "6"%char :: uint_digits u'
  | Decimal.D7 u' => "7"%char :: uint_digits u'
  | Decimal.D8 u' => "8"%char :: uint_digits u'
  | Decimal.D9 u' => "9"%char :: uint_digits u'
  end.

Definition str_of_int (n : Z) : str :=
  match Z.to_int n with
  | Decimal.Pos u => uint_digits u
  | Decimal.Neg u => "-"%char :: uint_digits u
  end.

End Py.

(** ** The operating system

    What the module asks of its environment, over a world state [W]:
    path predicates of [os.path], reading a text file, the decoded
    output of [subprocess.check_output], and [os.system], whose exit
    status the module ignores. *)

Record OS (W : Type) : Type := {
  path_exists : str -> W -> bool;
  path_islink : str -> W -> bool;
  path_ismount : str -> W -> bool;
  path_realpath : str -> W -> str;
  read_text : str -> W -> res str;
  check_output : list str -> W -> res str;
  system : str -> W -> W
}.

(** Floating point as the digest needs it: true division of integers and
    [str] of a float. *)
Record Floats : Type := {
  float : Type;
  truediv : Z -> Z -> res float;
  float_str : float -> str
}.

(** ** Mountpoint *)

Module Mountpoint.

Record t : Type := Build {
  partition : str;
  mountpoint : str;
  fs_format : str;
  details : str
}.

Definition lower (c : ascii) : ascii :=
  let n := N_of_ascii c in
  if ((65 <=? n) && (n <=? 90))%N then ascii_of_N (n + 32) else c.

(** [sep] occurs at the head of [s], letters compared ignoring case. *)
Fixpoint literal_at (sep s : str) : option str :=
  match sep, s with
  | [], _ => Some s
  | _ :: _, [] => None
  | a :: sep', b :: s' =>
      if Ascii.eqb a (lower b) then literal_at sep' s' else None
  end.

(** One field [{}] followed by the literal [sep] and the rest of the
    pattern [k]: the shortest non-empty text for which the rest matches. *)
Fixpoint lazy_field {A : Type} (sep : str) (k : str -> option A) (s : str)
  : option (str * A) :=
  match s with
  | [] => None
  | c :: s' =>
      match match literal_at sep s' with
            | Some s'' => k s''
            | None => None
            end with
      | Some a => Some ([c], a)
      | None =>
          match lazy_field sep k s' with
          | Some (g, a) => Some (c :: g, a)
          | None => None
          end
      end
  end.

Definition last_field (s : str) : option str :=
  match s with [] => None | _ :: _ => Some s end.

(** Modelled from the spec: [parse] comes from the third-party package
    of that name, which is not part of the sources.  This is
    [parse("{} on {} type {} {}", line)]: the whole line against
    "<source> on <mountpoint> type <fstype> <details>", every field
    non-empty and as short as possible from left to right, the literal
    words compared ignoring case; [None] when the line does not match. *)
Definition parse (line : str) : option (str * str * str * str) :=
  match lazy_field (lit " on ")
          (lazy_field (lit " type ") (lazy_field (lit " ") last_field))
          line with
  | Some (a, (b, (c, d))) => Some (a, b, c, d)
  | None => None
  end.

Section Probe.
Context {W : Type} (os : OS W).

(** The loop of [probe_mountpoints] over the lines of the output;
    subscripting the [None] of a failed parse raises [TypeError]. *)
Fixpoint probe_loop (lines : list str) (mountpoint_list : list t)
  : res (list t) :=
  match lines with
  | [] => Ok mountpoint_list
  | line :: rest =>
      match line with
      | [] => probe_loop rest mountpoint_list
      | _ :: _ =>
          match parse line with
          | Some (p0, p1, p2, p3) =>
              probe_loop rest (mountpoint_list ++ [Build p0 p1 p2 p3])
          | None => Raise TypeError
          end
      end
  end.

Definition probe_mountpoints (w : W) : res (list t) :=
  mount_output <- check_output os [lit "mount"] w ;;
  probe_loop (Py.split_on nl mount_output) [].

End Probe.

End Mountpoint.

(** ** MediaDevice *)

Module MediaDevice.

Record t : Type := Build {
  device : str;
  device_name : str;
  block_path : str;
  media_path : str;
  partition : str;
  removable : option bool;
  size : option Z;
  model : option str;
  vendor : option str
}.

(** [fdisk_output.split("\n")[-2].split()[0].strip()] *)
Definition partition_of_fdisk (fdisk_output : str) : res str :=
  line <- Py.index_neg (Py.split_on nl fdisk_output) 2 ;;
  word <- Py.index (Py.split line) 0 ;;
  Ok (Py.strip word).

Section WithOS.
Context {W : Type} (os : OS W).

(** One optional sysfs attribute: [None] when the file does not exist,
    otherwise its content read and converted by [conv]. *)
Definition sysfs_attr {A : Type} (path : str) (conv : str -> res A) (w : W)
  : res (option A) :=
  if path_exists os path w
  then content <- read_text os path w ;;
       v <- conv content ;;
       Ok (Some v)
  else Ok None.

Definition conv_removable (content : str) : res bool :=
  Ok (str_eqb (Py.strip content) (lit "1")).

Definition conv_size (content : str) : res Z :=
  n <- Py.int (Py.strip content) ;;
  Ok (n * 512)%Z.

Definition conv_text (content : str) : res str :=
  Ok (Py.strip content).

(** The constructor [MediaDevice(device)]. *)
Definition init (device : str) (w : W) : res t :=
  let device_name := Py.basename device in
  let block_path := lit "/sys/block/" ++ device_name in
  let media_path := lit "/media/" ++ device_name in
  fdisk_output <- check_output os [lit "fdisk"; lit "-l"; device] w ;;
  partition <- partition_of_fdisk fdisk_output ;;
  removable <- sysfs_attr (block_path ++ lit "/removable") conv_removable w ;;
  size <- sysfs_attr (block_path ++ lit "/size") conv_size w ;;
  vendor <- sysfs_attr (block_path ++ lit "/device/vendor") conv_text w ;;
  model <- sysfs_attr (block_path ++ lit "/device/model") conv_text w ;;
  Ok (Build device device_name block_path media_path partition
            removable size model vendor).

Definition is_mounted (d : t) (w : W) : bool :=
  path_ismount os (media_path d) w.

(** [mount_partition]: the returned value ([None] is Python's [None],
    what a function returns when it ends without a [return]) and the
    world after the call. *)
Definition mount_partition (d : t) (w : W) : option bool * W :=
  if negb (is_mounted d w)
  then
    let w1 := system os (lit "mkdir -p " ++ media_path d) w in
    let w2 := system os (lit "mount " ++ partition d ++ lit " " ++ media_path d) w1 in
    (Some (is_mounted d w2), w2)
  else (None, w).

Definition unmount_partition (d : t) (w : W) : option bool * W :=
  let w1 := system os (lit "umount " ++ media_path d) w in
  (Some (negb (is_mounted d w1)), w1).

(** The test of one candidate name: its class-block entry is a link
    whose real path has "/usb" at an index found greater than zero. *)
Definition usb_attached (device_name : str) (w : W) : bool :=
  let path := lit "/sys/class/block/" ++ device_name in
  if path_islink os path w
  then (Py.find (path_realpath os path w) (lit "/usb") >? 0)%Z
  else false.

(** The two fields read from one row: [int(words[1])] and [words[3]]. *)
Definition row_fields (line : str) : res (Z * str) :=
  let words := map Py.strip (Py.split line) in
  word1 <- Py.index words 1 ;;
  minor_number <- Py.int word1 ;;
  device_name <- Py.index words 3 ;;
  Ok (minor_number, device_name).

(** The body of the first loop of [probe_media_devices] for one row. *)
Definition scan_row (line : str) (devices : list str) (w : W)
  : res (list str) :=
  fields <- row_fields line ;;
  let (minor_number, device_name) := fields in
  if (minor_number mod 16 =? 0)%Z
  then
    if usb_attached device_name w
    then Ok (devices ++ [lit "/dev/" ++ device_name])
    else Ok devices
  else Ok devices.

Fixpoint scan_rows (lines : list str) (devices : list str) (w : W)
  : res (list str) :=
  match lines with
  | [] => Ok devices
  | line :: rest =>
      devices' <- scan_row line devices w ;;
      scan_rows rest devices' w
  end.

(** The candidate device paths: the rows after the two header lines. *)
Definition candidate_devices (w : W) : res (list str) :=
  content <- read_text os (lit "/proc/partitions") w ;;
  scan_rows (skipn 2 (Py.readlines content)) [] w.

Fixpoint build_devices (devices : list str) (media_devices_list : list t)
  (w : W) : res (list t) :=
  match devices with
  | [] => Ok media_devices_list
  | device :: rest =>
      match device with
      | [] => build_devices rest media_devices_list w
      | _ :: _ =>
          d <- init device w ;;
          build_devices rest (media_devices_list ++ [d]) w
      end
  end.

Definition probe_media_devices (w : W) : res (list t) :=
  devices <- candidate_devices w ;;
  build_devices devices [] w.

End WithOS.

End MediaDevice.

(** ** StorageMediaUsb *)

Module StorageMediaUsb.

Record t : Type := Build {
  media_device : MediaDevice.t;
  mountpoint : Mountpoint.t
}.

(** [template.format] applied to the arguments for a template whose fields are all [{}],
    the arguments already converted by [str]. *)
Fixpoint format (template : str) (args : list str) : res str :=
  match template with
  | [] => Ok []
  | c :: rest =>
      if Ascii.eqb c "{"
      then match rest with
           | c' :: rest' =>
               if Ascii.eqb c' "}"
               then match args with
                    | a :: args' => r <- format rest' args' ;; Ok (a ++ r)
                    | [] => Raise IndexError
                    end
               else Raise ValueError
           | [] => Raise ValueError
           end
      else if Ascii.eqb c "}" then Raise ValueError
      else r <- format rest args ;; Ok (c :: r)
  end.

Definition str_of_opt_str (v : option str) : str :=
  match v with Some s => s | None => lit "None" end.

Definition str_of_opt_int (v : option Z) : str :=
  match v with Some n => Py.str_of_int n | None => lit "None" end.

Definition digest_template : str :=
  lit "mountpoint:{} partition:{} size_bytes:{} size_gb:{} format:{} model:{} vendor:{} device_name:{} block_path:{} media_path:{}".

Section Digest.
Context (F : Floats).

(** [self.media_device.size / 1024 ** 3] *)
Definition get_size_gb (r : t) : res (float F) :=
  match MediaDevice.size (media_device r) with
  | Some n => truediv F n (1024 ^ 3)%Z
  | None => Raise TypeError
  end.

Definition digest (r : t) : res str :=
  let m := mountpoint r in
  let d := media_device r in
  size_gb <- get_size_gb r ;;
  format digest_template
    [ Mountpoint.mountpoint m; Mountpoint.partition m;
      str_of_opt_int (MediaDevice.size d); float_str F size_gb;
      Mountpoint.fs_format m; str_of_opt_str (MediaDevice.model d);
      str_of_opt_str (MediaDevice.vendor d); MediaDevice.device_name d;
      MediaDevice.block_path d; MediaDevice.media_path d ].

End Digest.

(** The two nested loops of [probe_storage_media_usb_devices]. *)
Definition matching_partition_list (media_device_list : list MediaDevice.t)
  (mountable : Mountpoint.t) : list MediaDevice.t :=
  filter (fun x => str_eqb (MediaDevice.partition x)
                           (Mountpoint.partition mountable))
         media_device_list.

Fixpoint append_matches (matching : list MediaDevice.t)
  (mountable : Mountpoint.t) (storage_media_usb_list : list t) : list t :=
  match matching with
  | [] => storage_media_usb_list
  | matched_media_device :: rest =>
      append_matches rest mountable
        (storage_media_usb_list ++ [Build matched_media_device mountable])
  end.

Fixpoint correlate_loop (mountable_list : list Mountpoint.t)
  (media_device_list : list MediaDevice.t) (storage_media_usb_list : list t)
  : list t :=
  match mountable_list with
  | [] => storage_media_usb_list
  | mountable :: rest =>
      correlate_loop rest media_device_list
        (append_matches (matching_partition_list media_device_list mountable)
                        mountable storage_media_usb_list)
  end.

Definition correlate (media_device_list : list MediaDevice.t)
  (mountable_list : list Mountpoint.t) : list t :=
  correlate_loop mountable_list media_device_list [].

Definition probe_storage_media_usb_devices {W : Type} (os : OS W) (w : W)
  : res (list t) :=
  mountable_list <- Mountpoint.probe_mountpoints os w ;;
  media_device_list <- MediaDevice.probe_media_devices os w ;;
  Ok (correlate media_device_list mountable_list).

End StorageMediaUsb.

(** ** A fixture: one USB stick and one internal disk

    A small operating system for the worked examples.  The world is the
    list of directories that are mount points; [usb_realpath] is where
    the class-block link of [sdb] resolves. *)

Module Fixture.

Definition unlines (ls : list string) : str :=
  concat (map (fun l => lit l ++ [nl]) ls).

Definition proc_partitions : str := unlines
  [ "major minor  #blocks  name";
    "";
    "   8        0  488386584 sda";
    "   8        1     524288 sda1";
    "   8       16    3910656 sdb";
    "   8       17    3909632 sdb1" ]%string.

Definition fdisk_sdb : str := unlines
  [ "Disk /dev/sdb: 3.73 GiB, 4004511744 bytes, 7821312 sectors";
    "Units: sectors of 1 * 512 = 512 bytes";
    "";
    "Device     Boot Start     End Sectors  Size Id Type";
    "/dev/sdb1  *  2048  999999  498975  83  Linux" ]%string.

Definition mount_table : str := unlines
  [ "sysfs on /sys type sysfs (rw,nosuid,nodev,noexec,relatime)";
    "/dev/sda1 on / type ext4 (rw,relatime)";
    "/dev/sdb1 on /media/sdb type vfat (rw,relatime)" ]%string.

Definition sda_realpath : str :=
  lit "/sys/devices/pci0000:00/0000:00:1f.2/ata1/host0/target0:0:0/0:0:0:0/block/sda".

Definition on_bus : str :=
  lit "/sys/devices/pci0000:00/0000:00:14.0/usb1/1-1/1-1:1.0/host2/target2:0:0/2:0:0:0/block/sdb".

Definition named (p : str) (s : string) : bool := str_eqb p (lit s).

Definition world : Type := list str.

Definition run (cmd : str) (w : world) : world :=
  match Py.split cmd with
  | [c; _; dir] => if named c "mount" then dir :: w else w
  | [c; dir] =>
      if named c "umount" then filter (fun d => negb (str_eqb d dir)) w else w
  | _ => w
  end.

Definition os (usb_realpath : str) : OS world := {|
  path_exists p _ :=
    named p "/sys/block/sdb/removable" || named p "/sys/block/sdb/size"
    || named p "/sys/block/sdb/device/vendor";
  path_islink p _ :=
    named p "/sys/class/block/sda" || named p "/sys/class/block/sdb";
  path_ismount p w := existsb (str_eqb p) w;
  path_realpath p _ :=
    if named p "/sys/class/block/sda" then sda_realpath
    else if named p "/sys/class/block/sdb" then usb_realpath
    else p;
  read_text p _ :=
    if named p "/proc/partitions" then Ok proc_partitions
    else if named p "/sys/block/sdb/removable" then Ok (unlines ["1"%string])
    else if named p "/sys/block/sdb/size" then Ok (unlines ["7821312"%string])
    else if named p "/sys/block/sdb/device/vendor" then Ok (unlines ["SanDisk "%string])
    else Raise OSError;
  check_output args _ :=
    match args with
    | [c] => if named c "mount" then Ok mount_table else Raise CalledProcessError
    | [c; o; d] =>
        if named c "fdisk" && named o "-l" && named d "/dev/sdb" then Ok fdisk_sdb
        else Raise CalledProcessError
    | _ => Raise CalledProcessError
    end;
  system := run
|}.

Definition unmounted : world := [].
Definition mounted : world := [lit "/media/sdb"].

(** A stand-in for floating point that keeps the quotient as a fraction. *)
Definition fractions : Floats := {|
  float := Z * Z;
  truediv a b := Ok (a, b);
  float_str q := Py.str_of_int (fst q) ++ lit "/" ++ Py.str_of_int (snd q)
|}.

Definition sdb : MediaDevice.t :=
  MediaDevice.Build (lit "/dev/sdb") (lit "sdb") (lit "/sys/block/sdb")
    (lit "/media/sdb") (lit "/dev/sdb1") (Some true) (Some 4004511744%Z)
    None (Some (lit "SanDisk")).

(** The same stick on a system that publishes no size attribute. *)
Definition sdb_unsized : MediaDevice.t :=
  MediaDevice.Build (lit "/dev/sdb") (lit "sdb") (lit "/sys/block/sdb")
    (lit "/media/sdb") (lit "/dev/sdb1") (Some true) None
    None (Some (lit "SanDisk")).

Definition sdb_mount : Mountpoint.t :=
  Mountpoint.Build (lit "/dev/sdb1") (lit "/media/sdb") (lit "vfat")
    (lit "(rw,relatime)").

Definition record : StorageMediaUsb.t := StorageMediaUsb.Build sdb sdb_mount.

Definition record_unsized : StorageMediaUsb.t :=
  StorageMediaUsb.Build sdb_unsized sdb_mount.

End Fixture.

(** ** The report printed by the module run as a program

    [for device in usb_storage_media: print(device.digest())]: the lines
    printed so far and the exception that ended the loop, if any.  A
    record is always true as a condition, so none is skipped. *)

Module Report.

Section WithFloats.
Context (F : Floats).

Fixpoint print_digests (devices : list StorageMediaUsb.t)
  (printed : list str) : list str * option exn :=
  match devices with
  | [] => (printed, None)
  | device :: rest =>
      match StorageMediaUsb.digest F device with
      | Ok line => print_digests rest (printed ++ [line])
      | Raise e => (printed, Some e)
      end
  end.

Definition main {W : Type} (os : OS W) (w : W) : list str * option exn :=
  match StorageMediaUsb.probe_storage_media_usb_devices os w with
  | Ok usb_storage_media => print_digests usb_storage_media []
  | Raise e => ([], Some e)
  end.

End WithFloats.

End Report.

(** ** The example program *)

Module Example.

(** Writing a text file: [open(path, "w")] and [write]. *)
Record Files (W : Type) : Type := {
  write_text : str -> str -> W -> res W
}.

Inductive failure : Set :=
| RuntimeError
| Uncaught (e : exn).

Definition endswith_slash (a : str) : bool :=
  match rev a with
  | c :: _ => Ascii.eqb c "/"
  | [] => false
  end.

(** [os.path.join(a, b)] *)
Definition path_join (a b : str) : str :=
  if Py.startswith (lit "/") b then b
  else match a with
       | [] => b
       | _ :: _ => if endswith_slash a then a ++ b else a ++ lit "/" ++ b
       end.

Definition greeting : str := lit "hey, we wrote to the flash drive!" ++ [nl].

Section WithOS.
Context {W : Type} (os : OS W) (files : Files W).

(** The program: the world it leaves and the exception that ended it,
    if any. *)
Definition main (w : W) : W * option failure :=
  match MediaDevice.probe_media_devices os w with
  | Raise e => (w, Some (Uncaught e))
  | Ok devices =>
      match devices with
      | [target_device] =>
          let w1 :=
            if negb (MediaDevice.is_mounted os target_device w)
            then snd (MediaDevice.mount_partition os target_device w)
            else w in
          let foo_fname :=
            path_join (MediaDevice.media_path target_device) (lit "foo.txt") in
          match write_text files foo_fname greeting w1 with
          | Ok w2 => (w2, None)
          | Raise e => (w1, Some (Uncaught e))
          end
      | _ => (w, Some RuntimeError)
      end
  end.

End WithOS.

End Example.

(** ** A laboratory system

    An operating system given by its partition listing, the output of
    the partitioning probe per device and the mount table.  It publishes
    no sysfs attribute, resolves every class-block link below a USB
    controller, and its [mount] command works when [mounting] is set.
    The world is the mount points and the files written so far. *)

Module Lab.

Record world : Type := {
  mounts : list str;
  written : list (str * str)
}.

Definition run (mounting : bool) (cmd : str) (w : world) : world :=
  match Py.split cmd with
  | [c; _; dir] =>
      if Fixture.named c "mount" && mounting
      then {| mounts := dir :: mounts w; written := written w |}
      else w
  | [c; dir] =>
      if Fixture.named c "umount"
      then {| mounts := filter (fun d => negb (str_eqb d dir)) (mounts w);
              written := written w |}
      else w
  | _ => w
  end.

Definition os (partitions : res str) (fdisk : str -> res str)
  (mount_table : res str) (mounting : bool) : OS world := {|
  path_exists _ _ := false;
  path_islink _ _ := true;
  path_ismount p w := existsb (str_eqb p) (mounts w);
  path_realpath p _ := lit "/sys/devices/pci0000:00/usb1" ++ p;
  read_text p _ :=
    if Fixture.named p "/proc/partitions" then partitions else Raise OSError;
  check_output args _ :=
    match args with
    | [_] => mount_table
    | [_; _; d] => fdisk d
    | _ => Raise CalledProcessError
    end;
  system := run mounting
|}.

Definition files : Example.Files world := {|
  Example.write_text path text w :=
    Ok {| mounts := mounts w; written := (path, text) :: written w |}
|}.

Definition empty : world := {| mounts := []; written := [] |}.

(** A probe output whose second-to-last line names the first partition
    of the device. *)
Definition fdisk_first_partition (device : str) : res str :=
  Ok (lit "Device Boot Start End Sectors Size Id Type" ++ [nl]
      ++ device ++ lit "1  *  2048  999999  498975  83  Linux" ++ [nl]).

End Lab.

(** ** The candidate listing, as the source filters it *)

Definition keep_row {W : Type} (os : OS W) (w : W) (fields : Z * str) : bool :=
  (fst fields mod 16 =? 0)%Z && MediaDevice.usb_attached os (snd fields) w.

Definition device_path (fields : Z * str) : str := lit "/dev/" ++ snd fields.

Definition no_slash (s : str) : bool :=
  forallb (fun c => negb (Ascii.eqb c "/")) s.

(** ** The correlation as the specification words it

    For every mount record, in order, the devices whose partition equals
    the record's, in order. *)

Definition same_partition (m : Mountpoint.t) (d : MediaDevice.t) : bool :=
  if list_eq_dec ascii_dec (MediaDevice.partition d) (Mountpoint.partition m)
  then true else false.

Definition correlate_spec (devs : list MediaDevice.t)
  (mounts : list Mountpoint.t) : list StorageMediaUsb.t :=
  flat_map
    (fun m => map (fun d => StorageMediaUsb.Build d m)
                  (filter (same_partition m) devs))
    mounts.

Definition matches_of (devs : list MediaDevice.t) (m : Mountpoint.t) : nat :=
  length (filter (same_partition m) devs).

(** ** The lines of an output, counted the ordinary way

    A line ends at its newline: the newline that ends an output starts
    no further line. *)

Definition chomp (l : str) : str :=
  match rev l with
  | c :: r => if Ascii.eqb c nl then rev r else l
  | [] => []
  end.

Definition output_lines (out : str) : list str :=
  map chomp (Py.readlines out).

(** The probe's output for a stick with two partitions. *)
Definition fdisk_two_partitions : str :=
  Fixture.unlines
    [ "Disk /dev/sdb: 3.73 GiB, 4004511744 bytes, 7821312 sectors";
      "Units: sectors of 1 * 512 = 512 bytes";
      "";
      "Device     Boot   Start     End Sectors  Size Id Type";
      "/dev/sdb1  *  2048  999999  498975  83  Linux";
      "/dev/sdb2      1000000 7821311 6821312  3.3G 83 Linux" ]%string.

(** ** Lines and tokens of a text, as the specification words them *)

Definition no_newline (s : str) : bool :=
  forallb (fun c => negb (Ascii.eqb c nl)) s.

(** Nothing, or text that ends with a newline: what may come before a
    line. *)
Definition whole_lines (s : str) : bool :=
  match rev s with
  | [] => true
  | c :: _ => Ascii.eqb c nl
  end.

Definition all_space (s : str) : bool := forallb Py.isspace s.

Definition no_space (s : str) : bool :=
  forallb (fun c => negb (Py.isspace c)) s.

(** Nothing, or text that starts with white space: what may come after
    a token. *)
Definition token_end (s : str) : bool :=
  match s with
  | [] => true
  | c :: _ => Py.isspace c
  end.

(** [sub] occurs somewhere in [s]. *)
Definition occurs_in (sub s : str) : Prop :=
  exists a b, s = a ++ sub ++ b.

(** ** The mount-table pattern, as the specification words it

    A line "<source> on <mountpoint> type <fstype> <details>" with four
    non-empty fields; the words between them are read ignoring case. *)

Definition reads_as (text : str) (word : string) : Prop :=
  map Mountpoint.lower text = lit word.

Definition line_of_fields (line a b c d : str) : Prop :=
  exists on ty sp,
    line = a ++ on ++ b ++ ty ++ c ++ sp ++ d
    /\ reads_as on " on " /\ reads_as ty " type " /\ reads_as sp " ".

Definition matches_pattern (line : str) : Prop :=
  exists a b c d,
    a <> [] /\ b <> [] /\ c <> [] /\ d <> [] /\ line_of_fields line a b c d.

Definition nonempty (line : str) : bool :=
  match line with [] => false | _ :: _ => true end.

(** The record made of the four fields captured from [line]. *)
Definition record_of (line : str) (r : Mountpoint.t) : Prop :=
  Mountpoint.parse line
  = Some (Mountpoint.partition r, Mountpoint.mountpoint r,
          Mountpoint.fs_format r, Mountpoint.details r).

(** ** The digest, as the specification words it *)

Definition key_value (key : string) (value : str) : str :=
  lit key ++ lit ":" ++ value.

Fixpoint join (sep : str) (xs : list str) : str :=
  match xs with
  | [] => []
  | [x] => x
  | x :: rest => x ++ sep ++ join sep rest
  end.

(** ** Tri-state attributes, as the specification words them

    An attribute read from [path] is unknown when the file is absent,
    and otherwise the converted content of the file. *)

Definition tri_state {W A : Type} (os : OS W) (w : W) (path : str)
  (conv : str -> res A) (field : option A) : Prop :=
  (path_exists os path w = false -> field = None)
  /\ (path_exists os path w = true ->
      exists content v,
        read_text os path w = Ok content
        /\ conv content = Ok v
        /\ field = Some v).

(** A word: what [split] yields. *)
Definition is_word (t : str) : Prop := t <> [] /\ no_space t = true.

(** A line as [readlines] yields it: text without a newline, followed
    by a newline unless the content ends there. *)
Definition is_line (l : str) : Prop :=
  l <> []
  /\ exists body, no_newline body = true /\ (l = body ++ [nl] \/ l = body).

(** * Properties *)

Unset Implicit Arguments.

(** ** Results *)

Lemma bind_ok {A B : Type} (m : res A) (k : A -> res B) (b : B) :
  bind m k = Ok b -> exists a, m = Ok a /\ k a = Ok b.
Proof.
  destruct m as [a|e]; simpl; intro H; [eauto | discriminate].
Qed.

Lemma str_eqb_eq (a b : str) : str_eqb a b = true <-> a = b.
Proof.
  unfold str_eqb. destruct (list_eq_dec ascii_dec a b); split; congruence.
Qed.

Lemma str_eqb_refl (a : str) : str_eqb a a = true.
Proof. now apply str_eqb_eq. Qed.

(** ** Correlation *)

Section Correlation.
Import StorageMediaUsb.

Lemma append_matches_app (ds : list MediaDevice.t) (m : Mountpoint.t) :
  forall acc, append_matches ds m acc = acc ++ map (fun d => Build d m) ds.
Proof.
  induction ds as [|d ds IH]; intro acc; simpl.
  - now rewrite app_nil_r.
  - rewrite IH, <- app_assoc. reflexivity.
Qed.

Lemma correlate_loop_app (devs : list MediaDevice.t) :
  forall mounts acc,
    correlate_loop mounts devs acc = acc ++ correlate_spec devs mounts.
Proof.
  induction mounts as [|m ms IH]; intro acc; simpl.
  - now rewrite app_nil_r.
  - rewrite IH, append_matches_app, <- app_assoc. reflexivity.
Qed.

Lemma correlate_spec_length (devs : list MediaDevice.t) :
  forall mounts,
    length (correlate_spec devs mounts) = list_sum (map (matches_of devs) mounts).
Proof.
  induction mounts as [|m ms IH]; simpl; [reflexivity|].
  rewrite length_app, length_map, IH. reflexivity.
Qed.

Lemma same_partition_eq (m : Mountpoint.t) (d : MediaDevice.t) :
  same_partition m d = true
  <-> MediaDevice.partition d = Mountpoint.partition m.
Proof. apply str_eqb_eq. Qed.

Lemma correlate_spec_In (devs : list MediaDevice.t)
  (mounts : list Mountpoint.t) (r : t) :
  In r (correlate_spec devs mounts)
  <-> In (media_device r) devs /\ In (mountpoint r) mounts
      /\ MediaDevice.partition (media_device r)
         = Mountpoint.partition (mountpoint r).
Proof.
  unfold correlate_spec. rewrite in_flat_map. split.
  - intros (m & Hm & Hr). apply in_map_iff in Hr.
    destruct Hr as (d & <- & Hd). apply filter_In in Hd.
    destruct Hd as (Hd & He). apply same_partition_eq in He. simpl. auto.
  - intros (Hd & Hm & He). exists (mountpoint r). split; [assumption|].
    apply in_map_iff. exists (media_device r). split.
    + now destruct r.
    + apply filter_In. split; [assumption|]. now apply same_partition_eq.
Qed.

(** C1. The correlator pairs every mount record, in mount-table order,
    with every device, in device-probe order, whose partition equals the
    record's source: the output is exactly that list of pairs, so it
    holds one record per matching pair, its length is the sum over the
    mount records of the number of matching devices, and it is empty for
    an empty mount table. *)
Theorem C1_correlate_pairs_matching_partitions :
  forall (devs : list MediaDevice.t) (mounts : list Mountpoint.t),
    correlate devs mounts = correlate_spec devs mounts
    /\ length (correlate devs mounts) = list_sum (map (matches_of devs) mounts)
    /\ (forall r, In r (correlate devs mounts)
          <-> In (media_device r) devs /\ In (mountpoint r) mounts
              /\ MediaDevice.partition (media_device r)
                 = Mountpoint.partition (mountpoint r))
    /\ correlate devs [] = [].
Proof.
  intros devs mounts.
  assert (E : correlate devs mounts = correlate_spec devs mounts).
  { unfold correlate. now rewrite correlate_loop_app. }
  rewrite E. split; [reflexivity|]. split; [apply correlate_spec_length|].
  split; [intro r; apply correlate_spec_In | reflexivity].
Qed.

End Correlation.

(** ** Lines and tokens *)

Section Text.

Lemma split_on_nonempty (sep : ascii) (s : str) : Py.split_on sep s <> [].
Proof.
  destruct s as [|c s]; simpl; [discriminate|].
  destruct (Ascii.eqb c sep); [discriminate|].
  destruct (Py.split_on sep s); discriminate.
Qed.

Lemma split_on_app (sep : ascii) (a x : str) :
  Py.split_on sep (a ++ sep :: x) = Py.split_on sep a ++ Py.split_on sep x.
Proof.
  induction a as [|c a IH]; simpl.
  - now rewrite Ascii.eqb_refl.
  - destruct (Ascii.eqb c sep); [now rewrite IH|].
    rewrite IH. pose proof (split_on_nonempty sep a) as Hne.
    destruct (Py.split_on sep a) as [|l ls]; [contradiction|reflexivity].
Qed.

Lemma split_on_one_line (l : str) :
  no_newline l = true -> Py.split_on nl l = [l].
Proof.
  induction l as [|c l IH]; simpl; [reflexivity|].
  intro H. apply andb_true_iff in H. destruct H as (Hc & Hl).
  apply negb_true_iff in Hc. rewrite Hc, (IH Hl). reflexivity.
Qed.

Lemma whole_lines_inv (s : str) :
  whole_lines s = true -> s = [] \/ exists b, s = b ++ [nl].
Proof.
  unfold whole_lines. intro H.
  destruct (rev s) as [|c r] eqn:E.
  - left. apply (f_equal (@rev ascii)) in E. now rewrite rev_involutive in E.
  - right. exists (rev r). apply Ascii.eqb_eq in H. subst c.
    apply (f_equal (@rev ascii)) in E. now rewrite rev_involutive in E.
Qed.

Lemma split_on_last_two (before l last : str) :
  whole_lines before = true -> no_newline l = true -> no_newline last = true ->
  exists pre, Py.split_on nl (before ++ l ++ nl :: last) = pre ++ [l; last].
Proof.
  intros Hb Hl Hlast.
  assert (E : Py.split_on nl (l ++ nl :: last) = [l; last]).
  { rewrite split_on_app, (split_on_one_line l Hl),
      (split_on_one_line last Hlast). reflexivity. }
  destruct (whole_lines_inv before Hb) as [-> | (b & ->)].
  - exists []. exact E.
  - exists (Py.split_on nl b). rewrite <- app_assoc. simpl.
    rewrite split_on_app, E. reflexivity.
Qed.

Lemma index_neg_second_to_last {A : Type} (pre : list A) (l last : A) :
  Py.index_neg (pre ++ [l; last]) 2 = Ok l.
Proof.
  unfold Py.index_neg, Py.index. rewrite rev_app_distr. reflexivity.
Qed.

Lemma words_aux_token (tok rest : str) :
  no_space tok = true -> token_end rest = true ->
  Py.words_aux (tok ++ rest) = (tok, snd (Py.words_aux rest)).
Proof.
  intros Ht Hr. induction tok as [|c tok IH]; simpl.
  - destruct rest as [|c r]; simpl; [reflexivity|].
    simpl in Hr. rewrite Hr. destruct (Py.words_aux r). reflexivity.
  - simpl in Ht. apply andb_true_iff in Ht. destruct Ht as (Hc & Ht).
    apply negb_true_iff in Hc. rewrite (IH Ht), Hc. reflexivity.
Qed.

Lemma split_leading_space (sp s : str) :
  all_space sp = true -> Py.split (sp ++ s) = Py.split s.
Proof.
  induction sp as [|c sp IH]; simpl; [reflexivity|].
  intro H. apply andb_true_iff in H. destruct H as (Hc & Hsp).
  rewrite <- (IH Hsp). unfold Py.split. simpl.
  destruct (Py.words_aux (sp ++ s)) as [w ws]. now rewrite Hc.
Qed.

Lemma split_first_token (sp tok rest : str) :
  all_space sp = true -> tok <> [] -> no_space tok = true ->
  token_end rest = true ->
  Py.split (sp ++ tok ++ rest) = tok :: snd (Py.words_aux rest).
Proof.
  intros Hsp Hne Ht Hr. rewrite (split_leading_space _ _ Hsp).
  unfold Py.split. rewrite (words_aux_token _ _ Ht Hr).
  destruct tok; [contradiction|reflexivity].
Qed.

Lemma lstrip_no_space (t : str) : no_space t = true -> Py.lstrip t = t.
Proof.
  destruct t as [|c t]; simpl; [reflexivity|].
  intro H. apply andb_true_iff in H. destruct H as (Hc & _).
  apply negb_true_iff in Hc. now rewrite Hc.
Qed.

Lemma no_space_rev (t : str) : no_space t = true -> no_space (rev t) = true.
Proof.
  unfold no_space. rewrite !forallb_forall. intros H c Hc.
  apply H. now apply in_rev.
Qed.

Lemma strip_no_space (t : str) : no_space t = true -> Py.strip t = t.
Proof.
  intro H. unfold Py.strip, Py.rstrip.
  rewrite (lstrip_no_space _ H), (lstrip_no_space _ (no_space_rev _ H)).
  apply rev_involutive.
Qed.

End Text.

(** ** The primary partition *)

Lemma init_partition {W : Type} (os : OS W) (w : W) (device : str)
  (d : MediaDevice.t) :
  MediaDevice.init os device w = Ok d ->
  exists out,
    check_output os [lit "fdisk"; lit "-l"; device] w = Ok out
    /\ MediaDevice.partition_of_fdisk out = Ok (MediaDevice.partition d).
Proof.
  unfold MediaDevice.init. intro H.
  apply bind_ok in H. destruct H as (out & Hout & H).
  apply bind_ok in H. destruct H as (p & Hp & H).
  do 4 (apply bind_ok in H; destruct H as (? & _ & H)).
  injection H as <-. simpl. eauto.
Qed.

(** ** Lines, the ordinary way *)

Section OutputLines.

Lemma readlines_nil (s : str) : Py.readlines s = [] -> s = [].
Proof.
  destruct s as [|c s]; [reflexivity|]. simpl.
  destruct (Ascii.eqb c nl); [discriminate|].
  destruct (Py.readlines s); discriminate.
Qed.

Lemma readlines_after_newline (b x : str) :
  Py.readlines (b ++ nl :: x) = Py.readlines (b ++ [nl]) ++ Py.readlines x.
Proof.
  induction b as [|c b IH]; simpl.
  - reflexivity.
  - destruct (Ascii.eqb c nl); [now rewrite IH|].
    rewrite IH.
    destruct (Py.readlines (b ++ [nl])) as [|l ls] eqn:E; [|reflexivity].
    apply readlines_nil in E. now destruct b.
Qed.

Lemma readlines_one_line (l : str) :
  no_newline l = true -> Py.readlines (l ++ [nl]) = [l ++ [nl]].
Proof.
  induction l as [|c l IH]; simpl; [reflexivity|].
  intro H. apply andb_true_iff in H. destruct H as (Hc & Hl).
  apply negb_true_iff in Hc. now rewrite Hc, (IH Hl).
Qed.

Lemma readlines_unterminated (l : str) :
  no_newline l = true -> l <> [] -> Py.readlines l = [l].
Proof.
  induction l as [|c l IH]; intros H Hne; [contradiction|].
  simpl in *. apply andb_true_iff in H. destruct H as (Hc & Hl).
  apply negb_true_iff in Hc. rewrite Hc.
  destruct l as [|c' l]; [reflexivity|].
  now rewrite (IH Hl ltac:(discriminate)).
Qed.

Lemma chomp_terminated (l : str) : chomp (l ++ [nl]) = l.
Proof.
  unfold chomp. rewrite rev_app_distr. simpl. apply rev_involutive.
Qed.

Lemma chomp_unterminated (l : str) : no_newline l = true -> chomp l = l.
Proof.
  intro H. unfold chomp. destruct (rev l) as [|c r] eqn:E.
  - apply (f_equal (@rev ascii)) in E. now rewrite rev_involutive in E.
  - unfold no_newline in H. rewrite forallb_forall in H.
    assert (Hc : negb (Ascii.eqb c nl) = true).
    { apply H, in_rev. rewrite E. now left. }
    apply negb_true_iff in Hc. now rewrite Hc.
Qed.

Lemma output_lines_last_two (before l last : str) :
  whole_lines before = true -> no_newline l = true -> no_newline last = true ->
  output_lines (before ++ l ++ nl :: last)
  = output_lines before ++ l :: match last with [] => [] | _ :: _ => [last] end.
Proof.
  intros Hb Hl Hlast. unfold output_lines.
  assert (E : Py.readlines (l ++ nl :: last)
              = (l ++ [nl]) :: match last with [] => [] | _ :: _ => [last] end).
  { rewrite readlines_after_newline, (readlines_one_line l Hl). simpl.
    f_equal. destruct last as [|c r]; [reflexivity|].
    now apply readlines_unterminated. }
  assert (M : map chomp (Py.readlines (l ++ nl :: last))
              = l :: match last with [] => [] | _ :: _ => [last] end).
  { rewrite E. simpl. rewrite chomp_terminated. f_equal.
    destruct last as [|c r]; [reflexivity|]. simpl.
    now rewrite (chomp_unterminated (c :: r) Hlast). }
  destruct (whole_lines_inv before Hb) as [-> | (b & ->)]; [exact M|].
  rewrite <- app_assoc. simpl.
  rewrite readlines_after_newline, map_app, M. reflexivity.
Qed.

Lemma index_neg_last {A : Type} (pre : list A) (l : A) :
  Py.index_neg (pre ++ [l]) 1 = Ok l.
Proof.
  unfold Py.index_neg, Py.index. rewrite rev_app_distr. reflexivity.
Qed.

End OutputLines.

(** C2, as amended.  The primary partition of the constructed device is
    the first white-space-delimited token of the second-to-last piece of
    the probe's output split at its newlines.  When the output is
    [before], a line [l], a newline and what follows the newline, [l] is
    that piece: it is the last line of an output that ends with its
    newline, and the second-to-last line only when a last line without
    newline follows.  With [l] made of white space, a token and what
    follows the token, the partition is the token. *)
Theorem C2_partition_is_first_token_of_line_before_final_newline :
  forall (W : Type) (os : OS W) (w : W)
         (device out before l last sp tok rest : str),
    check_output os [lit "fdisk"; lit "-l"; device] w = Ok out ->
    out = before ++ l ++ nl :: last ->
    whole_lines before = true ->
    no_newline l = true ->
    no_newline last = true ->
    l = sp ++ tok ++ rest ->
    all_space sp = true ->
    tok <> [] ->
    no_space tok = true ->
    token_end rest = true ->
    Py.index_neg (Py.split_on nl out) 2 = Ok l
    /\ (last = [] -> Py.index_neg (output_lines out) 1 = Ok l)
    /\ (last <> [] -> Py.index_neg (output_lines out) 2 = Ok l)
    /\ MediaDevice.partition_of_fdisk out = Ok tok
    /\ forall d, MediaDevice.init os device w = Ok d ->
                 MediaDevice.partition d = tok.
Proof.
  intros W os w device out before l last sp tok rest
         Hout -> Hb Hl Hlast El Hsp Hne Htok Hrest.
  assert (I : Py.index_neg (Py.split_on nl (before ++ l ++ nl :: last)) 2
              = Ok l).
  { destruct (split_on_last_two before l last Hb Hl Hlast) as (pre & ->).
    apply index_neg_second_to_last. }
  assert (P : MediaDevice.partition_of_fdisk (before ++ l ++ nl :: last)
              = Ok tok).
  { unfold MediaDevice.partition_of_fdisk. rewrite I. cbn [bind]. subst l.
    rewrite (split_first_token sp tok rest Hsp Hne Htok Hrest). simpl.
    now rewrite (strip_no_space _ Htok). }
  split; [exact I|].
  rewrite (output_lines_last_two before l last Hb Hl Hlast).
  split; [|split; [|split; [exact P|]]].
  - intros ->. apply index_neg_last.
  - intro Hl'. destruct last as [|c r]; [contradiction|].
    apply (index_neg_second_to_last (output_lines before) l (c :: r)).
  - intros d Hd. destruct (init_partition os w device d Hd) as (out' & Ho & Hp).
    congruence.
Qed.

(** The scenario of C2 on the fixture: the output ends with the newline
    of the line that starts with [/dev/sdb1], its last line. *)
Lemma C2_witness_fixture :
  Py.index_neg (output_lines Fixture.fdisk_sdb) 1
  = Ok (lit "/dev/sdb1  *  2048  999999  498975  83  Linux")
  /\ MediaDevice.partition_of_fdisk Fixture.fdisk_sdb = Ok (lit "/dev/sdb1")
  /\ MediaDevice.partition Fixture.sdb = lit "/dev/sdb1".
Proof.
  destruct (@C2_partition_is_first_token_of_line_before_final_newline
              Fixture.world (Fixture.os Fixture.on_bus) Fixture.mounted
              (lit "/dev/sdb") Fixture.fdisk_sdb
              (Fixture.unlines
                 [ "Disk /dev/sdb: 3.73 GiB, 4004511744 bytes, 7821312 sectors";
                   "Units: sectors of 1 * 512 = 512 bytes";
                   "";
                   "Device     Boot Start     End Sectors  Size Id Type" ]%string)
              (lit "/dev/sdb1  *  2048  999999  498975  83  Linux")
              []
              []
              (lit "/dev/sdb1")
              (lit "  *  2048  999999  498975  83  Linux"))
    as (_ & H1 & _ & H2 & H3);
    try reflexivity; try discriminate.
  split; [apply H1; reflexivity|]. split; [exact H2 | apply H3; reflexivity].
Defined.

(** C2 as first worded fails on a stick with two partitions: the
    second-to-last line of the output starts with [/dev/sdb1], and the
    constructed device has the partition [/dev/sdb2], the first token of
    the last line. *)
Lemma C2_counterexample_two_partitions :
  Py.index_neg (output_lines fdisk_two_partitions) 2
  = Ok (lit "/dev/sdb1  *  2048  999999  498975  83  Linux")
  /\ Py.index (Py.split (lit "/dev/sdb1  *  2048  999999  498975  83  Linux")) 0
     = Ok (lit "/dev/sdb1")
  /\ MediaDevice.init
       (Lab.os (Ok []) (fun _ => Ok fdisk_two_partitions) (Ok []) true)
       (lit "/dev/sdb") Lab.empty
     = Ok (MediaDevice.Build (lit "/dev/sdb") (lit "sdb")
             (lit "/sys/block/sdb") (lit "/media/sdb") (lit "/dev/sdb2")
             None None None None)
  /\ lit "/dev/sdb2" <> lit "/dev/sdb1".
Proof.
  split; [reflexivity|]. split; [reflexivity|]. split; [reflexivity|].
  discriminate.
Qed.

(** ** Mounting *)

Section Mounting.
Context {W : Type} (os : OS W).

Lemma mount_partition_when_not_mounted (d : MediaDevice.t) (w : W) :
  MediaDevice.is_mounted os d w = false ->
  let w1 := system os (lit "mkdir -p " ++ MediaDevice.media_path d) w in
  let w2 := system os (lit "mount " ++ MediaDevice.partition d ++ lit " "
                         ++ MediaDevice.media_path d) w1 in
  MediaDevice.mount_partition os d w
  = (Some (path_ismount os (MediaDevice.media_path d) w2), w2).
Proof.
  intro H. unfold MediaDevice.mount_partition. rewrite H. reflexivity.
Qed.

Lemma mount_partition_when_mounted (d : MediaDevice.t) (w : W) :
  MediaDevice.is_mounted os d w = true ->
  MediaDevice.mount_partition os d w = (None, w).
Proof.
  intro H. unfold MediaDevice.mount_partition. rewrite H. reflexivity.
Qed.

Lemma unmount_partition_returns_state (d : MediaDevice.t) (w : W) :
  let w1 := system os (lit "umount " ++ MediaDevice.media_path d) w in
  MediaDevice.unmount_partition os d w
  = (Some (negb (path_ismount os (MediaDevice.media_path d) w1)), w1).
Proof. reflexivity. Qed.

End Mounting.

(** C3. On the fixture with the stick already mounted at [/media/sdb],
    [mount_partition] leaves the world as it is and returns [None], not
    the mounted state [True]; from the unmounted world it returns the
    mounted state after the two commands. *)
Theorem C3_mount_partition_returns_none_when_mounted :
  MediaDevice.is_mounted (Fixture.os Fixture.on_bus) Fixture.sdb
    Fixture.mounted = true
  /\ MediaDevice.mount_partition (Fixture.os Fixture.on_bus) Fixture.sdb
       Fixture.mounted = (None, Fixture.mounted)
  /\ MediaDevice.mount_partition (Fixture.os Fixture.on_bus) Fixture.sdb
       Fixture.unmounted = (Some true, Fixture.mounted).
Proof.
  split; [reflexivity|]. split.
  - now apply mount_partition_when_mounted.
  - now rewrite mount_partition_when_not_mounted.
Qed.

(** ** Finding a substring *)

Section Find.
Variable sub : str.

Lemma startswith_iff (s : str) :
  Py.startswith sub s = true <-> exists b, s = sub ++ b.
Proof.
  revert s. induction sub as [|a p IH]; intro s; simpl.
  - split; [intros _; now exists s | reflexivity].
  - destruct s as [|b s].
    + split; [discriminate | intros (x & Hx); discriminate].
    + rewrite andb_true_iff, Ascii.eqb_eq, IH. split.
      * intros (-> & x & ->). now exists x.
      * intros (x & Hx). injection Hx as -> ->. split; [reflexivity|].
        now exists x.
Qed.

Lemma find_at_head (s : str) (i : Z) :
  Py.startswith sub s = true -> Py.find_at sub s i = i.
Proof.
  intro H. destruct s; simpl in *; now rewrite H.
Qed.

Lemma find_at_range (s : str) :
  forall i, Py.find_at sub s i = (-1)%Z \/ (i <= Py.find_at sub s i)%Z.
Proof.
  induction s as [|c s IH]; intro i; simpl.
  - destruct (Py.startswith sub []); [right; lia | now left].
  - destruct (Py.startswith sub (c :: s)); [right; lia|].
    destruct (IH (i + 1)%Z); [now left | right; lia].
Qed.

Lemma find_at_not_head (s : str) (i : Z) :
  Py.startswith sub s = false -> Py.find_at sub s i <> i \/ i = (-1)%Z.
Proof.
  intro H. destruct s as [|c s]; simpl; rewrite H.
  - destruct (Z.eq_dec i (-1)); [now right | left; congruence].
  - destruct (find_at_range s (i + 1)%Z) as [E|E].
    + destruct (Z.eq_dec i (-1)); [now right | left; congruence].
    + left. lia.
Qed.

Lemma find_at_found (s : str) :
  forall i, Py.find_at sub s i <> (-1)%Z -> occurs_in sub s.
Proof.
  induction s as [|c s IH]; intro i; simpl.
  - destruct (Py.startswith sub []) eqn:E; [|congruence].
    intros _. apply startswith_iff in E. destruct E as (b & ->).
    now exists [], b.
  - destruct (Py.startswith sub (c :: s)) eqn:E.
    + intros _. apply startswith_iff in E. destruct E as (b & ->).
      now exists [], b.
    + intro H. destruct (IH _ H) as (a & b & ->). now exists (c :: a), b.
Qed.

Lemma find_at_missing (s : str) :
  forall i, (0 <= i)%Z -> Py.find_at sub s i = (-1)%Z -> ~ occurs_in sub s.
Proof.
  induction s as [|c s IH]; intros i Hi; simpl.
  - destruct (Py.startswith sub []) eqn:E; [lia|].
    intros _ (a & b & H). destruct a; [|discriminate]. simpl in H.
    assert (Py.startswith sub [] = true) by (apply startswith_iff; eauto).
    congruence.
  - destruct (Py.startswith sub (c :: s)) eqn:E; [lia|].
    intros H (a & b & Hs). destruct a as [|x a]; simpl in Hs.
    + assert (Py.startswith sub (c :: s) = true)
        by (apply startswith_iff; eauto).
      congruence.
    + injection Hs as -> ->. apply (IH (i + 1)%Z ltac:(lia) H).
      now exists a, b.
Qed.

(** [s.find(sub) > 0] holds when [sub] occurs in [s] but not at its
    very start. *)
Lemma find_positive_iff (s : str) :
  (Py.find s sub >? 0)%Z = true
  <-> occurs_in sub s /\ Py.startswith sub s = false.
Proof.
  unfold Py.find. rewrite Z.gtb_lt. split.
  - intro H. split.
    + apply (find_at_found s 0). lia.
    + destruct (Py.startswith sub s) eqn:E; [|reflexivity].
      rewrite (find_at_head s 0 E) in H. lia.
  - intros (Ho & Hs).
    destruct (find_at_range s 0) as [E|E].
    + exfalso. now apply (find_at_missing s 0 ltac:(lia) E).
    + destruct (find_at_not_head s 0 Hs); lia.
Qed.

End Find.

(** ** Candidate devices *)

Section Candidates.
Context {W : Type} (os : OS W).

(** What the USB test of a device name decides. *)
Lemma usb_attached_iff (device_name : str) (w : W) :
  let path := lit "/sys/class/block/" ++ device_name in
  MediaDevice.usb_attached os device_name w = true
  <-> path_islink os path w = true
      /\ occurs_in (lit "/usb") (path_realpath os path w)
      /\ Py.startswith (lit "/usb") (path_realpath os path w) = false.
Proof.
  unfold MediaDevice.usb_attached. cbv zeta.
  destruct (path_islink os _ w).
  - rewrite find_positive_iff. tauto.
  - split; [discriminate | intros (H & _); discriminate].
Qed.

Lemma scan_row_excluded (line : str) (devices : list str) (w : W)
  (minor : Z) (name : str) :
  MediaDevice.row_fields line = Ok (minor, name) ->
  (minor mod 16 <> 0)%Z ->
  MediaDevice.scan_row os line devices w = Ok devices.
Proof.
  intros Hf Hm. unfold MediaDevice.scan_row. rewrite Hf. simpl.
  apply Z.eqb_neq in Hm. now rewrite Hm.
Qed.

Lemma scan_row_result (line : str) (devices devices' : list str) (w : W) :
  MediaDevice.scan_row os line devices w = Ok devices' ->
  devices' = devices
  \/ exists minor name,
       MediaDevice.row_fields line = Ok (minor, name)
       /\ (minor mod 16 = 0)%Z
       /\ MediaDevice.usb_attached os name w = true
       /\ devices' = devices ++ [lit "/dev/" ++ name].
Proof.
  unfold MediaDevice.scan_row. intro H.
  apply bind_ok in H. destruct H as ((minor & name) & Hf & H).
  destruct (minor mod 16 =? 0)%Z eqn:Hm.
  - destruct (MediaDevice.usb_attached os name w) eqn:Hu.
    + right. exists minor, name. apply Z.eqb_eq in Hm.
      injection H as <-. auto.
    + left. congruence.
  - left. congruence.
Qed.

Lemma scan_rows_app (pre post : list str) (w : W) :
  forall devices,
    MediaDevice.scan_rows os (pre ++ post) devices w
    = (devices' <- MediaDevice.scan_rows os pre devices w ;;
       MediaDevice.scan_rows os post devices' w).
Proof.
  induction pre as [|line pre IH]; intro devices; simpl; [reflexivity|].
  destruct (MediaDevice.scan_row os line devices w); simpl;
    [apply IH | reflexivity].
Qed.

Lemma scan_rows_skip (pre post : list str) (line : str) (w : W)
  (minor : Z) (name : str) (devices : list str) :
  MediaDevice.row_fields line = Ok (minor, name) ->
  (minor mod 16 <> 0)%Z ->
  MediaDevice.scan_rows os (pre ++ line :: post) devices w
  = MediaDevice.scan_rows os (pre ++ post) devices w.
Proof.
  intros Hf Hm. rewrite !scan_rows_app.
  destruct (MediaDevice.scan_rows os pre devices w) as [acc|e]; simpl;
    [|reflexivity].
  now rewrite (scan_row_excluded line acc w minor name Hf Hm).
Qed.

Lemma scan_rows_origin (w : W) (rows : list str) :
  forall devices devs,
    MediaDevice.scan_rows os rows devices w = Ok devs ->
    forall dev, In dev devs ->
      In dev devices
      \/ exists line minor name,
           In line rows
           /\ MediaDevice.row_fields line = Ok (minor, name)
           /\ (minor mod 16 = 0)%Z
           /\ dev = lit "/dev/" ++ name.
Proof.
  induction rows as [|line rows IH]; intros devices devs H dev Hin;
    simpl in H.
  - injection H as <-. now left.
  - apply bind_ok in H. destruct H as (acc & Hrow & H).
    destruct (IH acc devs H dev Hin) as [Hacc | (l & m & n & Hl & Hr)].
    + destruct (scan_row_result line devices acc w Hrow)
        as [-> | (m & n & Hf & Hm & _ & ->)]; [now left|].
      apply in_app_or in Hacc. destruct Hacc as [Hd | [<- | []]];
        [now left|].
      right. exists line, m, n. simpl. auto.
    + right. exists l, m, n. simpl. tauto.
Qed.

End Candidates.

(** C4. The class-block links of sysfs resolve below [/sys/].  For a
    row that passes the minor-number filter and a name whose real path
    lies there, the device is kept as a candidate exactly when its
    class-block entry is a symbolic link and [/usb] occurs in the real
    path, wherever in the path it occurs. *)
Theorem C4_usb_marker_decides_the_candidate :
  forall (W : Type) (os : OS W) (w : W) (line : str) (minor : Z)
         (name : str) (devices : list str),
    MediaDevice.row_fields line = Ok (minor, name) ->
    (minor mod 16 = 0)%Z ->
    Py.startswith (lit "/sys/")
      (path_realpath os (lit "/sys/class/block/" ++ name) w) = true ->
    (MediaDevice.usb_attached os name w = true
     <-> path_islink os (lit "/sys/class/block/" ++ name) w = true
         /\ occurs_in (lit "/usb")
              (path_realpath os (lit "/sys/class/block/" ++ name) w))
    /\ MediaDevice.scan_row os line devices w
       = Ok (if MediaDevice.usb_attached os name w
             then devices ++ [lit "/dev/" ++ name]
             else devices).
Proof.
  intros W os w line minor name devices Hf Hm Hsys. split.
  - pose proof (usb_attached_iff os name w) as U. cbv zeta in U.
    rewrite U. apply startswith_iff in Hsys. destruct Hsys as (b & ->).
    split; [tauto|]. intros (Hl & Ho). auto.
  - unfold MediaDevice.scan_row. rewrite Hf. cbn [bind].
    apply Z.eqb_eq in Hm. rewrite Hm.
    now destruct (MediaDevice.usb_attached os name w).
Qed.

(** C4 on the fixture: the row of [sdb], minor 16, whose link resolves
    below a USB controller, with the marker far from the start. *)
Lemma C4_witness_fixture :
  (MediaDevice.usb_attached (Fixture.os Fixture.on_bus) (lit "sdb")
     Fixture.mounted = true
   <-> path_islink (Fixture.os Fixture.on_bus)
         (lit "/sys/class/block/" ++ lit "sdb") Fixture.mounted = true
       /\ occurs_in (lit "/usb")
            (path_realpath (Fixture.os Fixture.on_bus)
               (lit "/sys/class/block/" ++ lit "sdb") Fixture.mounted))
  /\ MediaDevice.scan_row (Fixture.os Fixture.on_bus)
       (lit "   8       16    3910656 sdb" ++ [nl]) [] Fixture.mounted
     = Ok [lit "/dev/sdb"].
Proof.
  apply (C4_usb_marker_decides_the_candidate Fixture.world
           (Fixture.os Fixture.on_bus) Fixture.mounted
           (lit "   8       16    3910656 sdb" ++ [nl]) 16%Z (lit "sdb") []);
    reflexivity.
Defined.

(** C5. Every candidate device comes from a row after the two header
    lines whose minor number is a multiple of 16, and a row whose minor
    number is not a multiple of 16 can be struck from the listing
    without changing the candidates. *)
Theorem C5_only_rows_with_minor_multiple_of_16 :
  forall (W : Type) (os : OS W) (w : W) (content : str),
    read_text os (lit "/proc/partitions") w = Ok content ->
    let rows := skipn 2 (Py.readlines content) in
    (forall devs dev,
        MediaDevice.candidate_devices os w = Ok devs -> In dev devs ->
        exists line minor name,
          In line rows
          /\ MediaDevice.row_fields line = Ok (minor, name)
          /\ (minor mod 16 = 0)%Z
          /\ dev = lit "/dev/" ++ name)
    /\ (forall pre line post minor name,
          rows = pre ++ line :: post ->
          MediaDevice.row_fields line = Ok (minor, name) ->
          (minor mod 16 <> 0)%Z ->
          MediaDevice.scan_row os line [] w = Ok []
          /\ MediaDevice.candidate_devices os w
             = MediaDevice.scan_rows os (pre ++ post) [] w).
Proof.
  intros W os w content Hread rows.
  assert (Hc : MediaDevice.candidate_devices os w
               = MediaDevice.scan_rows os rows [] w).
  { unfold MediaDevice.candidate_devices. rewrite Hread. reflexivity. }
  rewrite Hc. clearbody rows. split.
  - intros devs dev H Hin.
    destruct (scan_rows_origin os w rows [] devs H dev Hin) as [[]|E].
    exact E.
  - intros pre line post minor name -> Hf Hm. split.
    + now apply (scan_row_excluded os line [] w minor name).
    + now apply (scan_rows_skip os pre post line w minor name).
Qed.

(** C5 on the fixture: the row of [sdb1], minor 17, is excluded. *)
Lemma C5_witness_fixture :
  let os := Fixture.os Fixture.on_bus in
  MediaDevice.scan_row os (lit "   8       17    3909632 sdb1" ++ [nl]) []
    Fixture.mounted = Ok []
  /\ MediaDevice.candidate_devices os Fixture.mounted
     = MediaDevice.scan_rows os
         [ lit "   8        0  488386584 sda" ++ [nl];
           lit "   8        1     524288 sda1" ++ [nl];
           lit "   8       16    3910656 sdb" ++ [nl] ] [] Fixture.mounted.
Proof.
  cbv zeta.
  destruct (C5_only_rows_with_minor_multiple_of_16 Fixture.world
              (Fixture.os Fixture.on_bus) Fixture.mounted
              Fixture.proc_partitions eq_refl) as [_ H].
  apply (H [ lit "   8        0  488386584 sda" ++ [nl];
             lit "   8        1     524288 sda1" ++ [nl];
             lit "   8       16    3910656 sdb" ++ [nl] ]
           (lit "   8       17    3909632 sdb1" ++ [nl]) []
           17%Z (lit "sdb1")).
  - reflexivity.
  - reflexivity.
  - intro E. vm_compute in E. discriminate E.
Defined.

(** ** The mount table *)

Section MountTable.
Import Mountpoint.

Lemma literal_at_sound (sep : str) :
  forall s r, literal_at sep s = Some r ->
              exists l, s = l ++ r /\ map lower l = sep.
Proof.
  induction sep as [|a sep IH]; intros s r H; simpl in H.
  - destruct s; injection H as <-; now exists [].
  - destruct s as [|b s]; [discriminate|].
    destruct (Ascii.eqb a (lower b)) eqn:E; [|discriminate].
    apply Ascii.eqb_eq in E. destruct (IH s r H) as (l & -> & <-).
    exists (b :: l). simpl. now rewrite E.
Qed.

Lemma literal_at_complete (l r : str) :
  literal_at (map lower l) (l ++ r) = Some r.
Proof.
  induction l as [|b l IH]; simpl; [now destruct r|].
  now rewrite Ascii.eqb_refl.
Qed.

Lemma lazy_field_sound {A : Type} (sep : str) (k : str -> option A) :
  forall s g a,
    lazy_field sep k s = Some (g, a) ->
    g <> [] /\ exists l r, s = g ++ l ++ r /\ map lower l = sep /\ k r = Some a.
Proof.
  induction s as [|c s IH]; intros g a H; simpl in H; [discriminate|].
  destruct (literal_at sep s) as [r|] eqn:El.
  - destruct (k r) as [a'|] eqn:Ek.
    + injection H as <- <-. split; [discriminate|].
      destruct (literal_at_sound sep s r El) as (l & -> & Hl).
      exists l, r. auto.
    + destruct (lazy_field sep k s) as [[g' a']|]; [|discriminate].
      injection H as <- <-.
      destruct (IH g' a' eq_refl) as (_ & l & r' & -> & Hl & Hk).
      split; [discriminate|]. exists l, r'. auto.
  - destruct (lazy_field sep k s) as [[g' a']|]; [|discriminate].
    injection H as <- <-.
    destruct (IH g' a' eq_refl) as (_ & l & r' & -> & Hl & Hk).
    split; [discriminate|]. exists l, r'. auto.
Qed.

Lemma lazy_field_complete {A : Type} (k : str -> option A) (l r : str) :
  k r <> None ->
  forall g, g <> [] -> lazy_field (map lower l) k (g ++ l ++ r) <> None.
Proof.
  intro Hk. induction g as [|c g IH]; intros Hg; [contradiction|].
  simpl. destruct g as [|c' g].
  - simpl. rewrite literal_at_complete.
    destruct (k r); [discriminate | contradiction].
  - specialize (IH ltac:(discriminate)).
    destruct (match literal_at (map lower l) ((c' :: g) ++ l ++ r) with
              | Some s'' => k s''
              | None => None
              end); [discriminate|].
    destruct (lazy_field (map lower l) k ((c' :: g) ++ l ++ r)) as [[g' a]|];
      [discriminate | contradiction].
Qed.

Lemma parse_sound (line a b c d : str) :
  parse line = Some (a, b, c, d) ->
  a <> [] /\ b <> [] /\ c <> [] /\ d <> [] /\ line_of_fields line a b c d.
Proof.
  unfold parse. intro H.
  destruct (lazy_field _ _ line) as [[a' [b' [c' d']]]|] eqn:E;
    [|discriminate].
  injection H as -> -> -> ->.
  destruct (lazy_field_sound _ _ _ _ _ E) as (Ha & on & r1 & -> & Hon & E1).
  destruct (lazy_field_sound _ _ _ _ _ E1) as (Hb & ty & r2 & -> & Hty & E2).
  destruct (lazy_field_sound _ _ _ _ _ E2) as (Hc & sp & r3 & -> & Hsp & E3).
  destruct r3 as [|x r3]; [discriminate|]. injection E3 as <-.
  repeat (split; [assumption || discriminate|]).
  exists on, ty, sp. auto.
Qed.

Lemma parse_complete (line : str) :
  matches_pattern line -> parse line <> None.
Proof.
  intros (a & b & c & d & Ha & Hb & Hc & Hd & on & ty & sp & -> & Hon & Hty & Hsp).
  unfold reads_as in *. unfold parse.
  rewrite <- Hon, <- Hty, <- Hsp.
  match goal with
  | |- match ?x with _ => _ end <> None =>
      assert (N : x <> None); [|destruct x as [[? [? [? ?]]]|];
                                 [discriminate | contradiction]]
  end.
  apply lazy_field_complete; [|assumption].
  apply lazy_field_complete; [|assumption].
  apply lazy_field_complete; [|assumption].
  destruct d; [contradiction | discriminate].
Qed.

Lemma parse_matches (line : str) :
  parse line <> None <-> matches_pattern line.
Proof.
  split; [|apply parse_complete].
  destruct (parse line) as [[[[a b] c] d]|] eqn:E; [|contradiction].
  intros _. exists a, b, c, d. now apply parse_sound.
Qed.

Lemma probe_loop_ok (lines : list str) :
  forall acc,
    (forall line, In line (filter nonempty lines) -> matches_pattern line) ->
    exists records,
      probe_loop lines acc = Ok (acc ++ records)
      /\ Forall2 record_of (filter nonempty lines) records.
Proof.
  induction lines as [|line lines IH]; intros acc H; simpl.
  - exists []. rewrite app_nil_r. split; [reflexivity | constructor].
  - destruct line as [|c line]; simpl in H |- *; [now apply IH|].
    pose proof (parse_complete (c :: line) (H _ (or_introl eq_refl))) as Hp.
    destruct (parse (c :: line)) as [[[[p0 p1] p2] p3]|] eqn:E;
      [|contradiction].
    destruct (IH (acc ++ [Build p0 p1 p2 p3])
                 (fun l Hl => H l (or_intror Hl))) as (rs & -> & HF).
    exists (Build p0 p1 p2 p3 :: rs). rewrite <- app_assoc.
    split; [reflexivity|]. constructor; [exact E | exact HF].
Qed.

Lemma probe_loop_fatal (lines : list str) :
  forall acc,
    (exists line, In line (filter nonempty lines) /\ ~ matches_pattern line) ->
    probe_loop lines acc = Raise TypeError.
Proof.
  induction lines as [|line lines IH]; intros acc (bad & Hin & Hbad);
    simpl in Hin |- *; [contradiction|].
  destruct line as [|c line]; simpl in Hin; [apply IH; eauto|].
  destruct (parse (c :: line)) as [[[[p0 p1] p2] p3]|] eqn:E.
  - apply IH. exists bad. split; [|assumption].
    destruct Hin as [<- | Hin]; [|assumption].
    exfalso. apply Hbad, parse_matches. congruence.
  - reflexivity.
Qed.

End MountTable.

(** C6. Every non-empty line of the mount command's output is read
    against the pattern: when all of them match, the result is one
    record per line, in order, made of the line's four captured fields;
    when one of them does not match, the whole probe raises and returns
    no records; and the line of the scenario yields its four fields. *)
Theorem C6_probe_mountpoints_parses_every_line :
  forall (W : Type) (os : OS W) (w : W) (out : str),
    check_output os [lit "mount"] w = Ok out ->
    let lines := filter nonempty (Py.split_on nl out) in
    ((forall line, In line lines -> matches_pattern line) ->
     exists records,
       Mountpoint.probe_mountpoints os w = Ok records
       /\ Forall2 record_of lines records)
    /\ ((exists line, In line lines /\ ~ matches_pattern line) ->
        Mountpoint.probe_mountpoints os w = Raise TypeError)
    /\ record_of (lit "/dev/sdb1 on /media/sdb1 type vfat rw,relatime")
         (Mountpoint.Build (lit "/dev/sdb1") (lit "/media/sdb1")
                           (lit "vfat") (lit "rw,relatime")).
Proof.
  intros W os w out Hout lines. unfold Mountpoint.probe_mountpoints.
  rewrite Hout. simpl. split; [|split].
  - intro H. destruct (probe_loop_ok (Py.split_on nl out) [] H)
      as (records & E & HF).
    exists records. auto.
  - apply probe_loop_fatal.
  - reflexivity.
Qed.

(** C6 on the fixture: the three lines of the mount table give three
    records, the last one for the stick. *)
Lemma C6_witness_fixture :
  exists records,
    Mountpoint.probe_mountpoints (Fixture.os Fixture.on_bus) Fixture.mounted
    = Ok records
    /\ Forall2 record_of
         [ lit "sysfs on /sys type sysfs (rw,nosuid,nodev,noexec,relatime)";
           lit "/dev/sda1 on / type ext4 (rw,relatime)";
           lit "/dev/sdb1 on /media/sdb type vfat (rw,relatime)" ]
         records.
Proof.
  destruct (C6_probe_mountpoints_parses_every_line Fixture.world
              (Fixture.os Fixture.on_bus) Fixture.mounted
              Fixture.mount_table eq_refl) as [H _].
  apply H. intros line Hin. apply parse_matches.
  vm_compute in Hin.
  destruct Hin as [<- | [<- | [<- | []]]]; vm_compute; discriminate.
Defined.

(** ** Device attributes *)

Section Attributes.
Context {W : Type} (os : OS W).

Lemma sysfs_attr_tri_state {A : Type} (path : str) (conv : str -> res A)
  (w : W) (field : option A) :
  MediaDevice.sysfs_attr os path conv w = Ok field ->
  tri_state os w path conv field.
Proof.
  unfold MediaDevice.sysfs_attr, tri_state. intro H.
  destruct (path_exists os path w).
  - split; [discriminate|]. intros _.
    apply bind_ok in H. destruct H as (content & Hc & H).
    apply bind_ok in H. destruct H as (v & Hv & H).
    injection H as <-. eauto.
  - injection H as <-. split; [reflexivity | discriminate].
Qed.

Lemma init_fields (device : str) (w : W) (d : MediaDevice.t) :
  MediaDevice.init os device w = Ok d ->
  let block_path := lit "/sys/block/" ++ Py.basename device in
  MediaDevice.device d = device
  /\ MediaDevice.device_name d = Py.basename device
  /\ MediaDevice.block_path d = block_path
  /\ MediaDevice.media_path d = lit "/media/" ++ Py.basename device
  /\ MediaDevice.sysfs_attr os (block_path ++ lit "/removable")
       MediaDevice.conv_removable w = Ok (MediaDevice.removable d)
  /\ MediaDevice.sysfs_attr os (block_path ++ lit "/size")
       MediaDevice.conv_size w = Ok (MediaDevice.size d)
  /\ MediaDevice.sysfs_attr os (block_path ++ lit "/device/vendor")
       MediaDevice.conv_text w = Ok (MediaDevice.vendor d)
  /\ MediaDevice.sysfs_attr os (block_path ++ lit "/device/model")
       MediaDevice.conv_text w = Ok (MediaDevice.model d).
Proof.
  unfold MediaDevice.init. intro H.
  apply bind_ok in H. destruct H as (out & _ & H).
  apply bind_ok in H. destruct H as (p & _ & H).
  apply bind_ok in H. destruct H as (rem & Hrem & H).
  apply bind_ok in H. destruct H as (sz & Hsz & H).
  apply bind_ok in H. destruct H as (ven & Hven & H).
  apply bind_ok in H. destruct H as (mdl & Hmdl & H).
  injection H as <-. simpl. repeat split; assumption.
Qed.

Lemma sysfs_attr_succeeds {A : Type} (path : str) (conv : str -> res A)
  (w : W) :
  (path_exists os path w = true -> is_ok (read_text os path w) = true) ->
  (forall content, read_text os path w = Ok content ->
                   is_ok (conv content) = true) ->
  exists field, MediaDevice.sysfs_attr os path conv w = Ok field.
Proof.
  intros Hread Hconv. unfold MediaDevice.sysfs_attr.
  destruct (path_exists os path w); [|eauto].
  specialize (Hread eq_refl).
  destruct (read_text os path w) as [content|]; [|discriminate].
  specialize (Hconv content eq_refl). simpl.
  destruct (conv content); [simpl; eauto | discriminate].
Qed.

(** The constructor succeeds as soon as the probe's output has a token
    on its second-to-last line and the attribute files that exist can be
    read, the size one holding an integer. *)
Lemma init_succeeds (device : str) (w : W) (out p : str) :
  let block_path := lit "/sys/block/" ++ Py.basename device in
  check_output os [lit "fdisk"; lit "-l"; device] w = Ok out ->
  MediaDevice.partition_of_fdisk out = Ok p ->
  (forall path, path_exists os path w = true ->
                is_ok (read_text os path w) = true) ->
  (forall content,
      read_text os (block_path ++ lit "/size") w = Ok content ->
      is_ok (Py.int (Py.strip content)) = true) ->
  exists d, MediaDevice.init os device w = Ok d.
Proof.
  intros block_path Hout Hp Hread Hint. unfold MediaDevice.init.
  rewrite Hout. cbn [bind]. rewrite Hp. cbn [bind]. fold block_path.
  destruct (sysfs_attr_succeeds (block_path ++ lit "/removable")
              MediaDevice.conv_removable w (Hread _)) as (rem & ->);
    [reflexivity|].
  destruct (sysfs_attr_succeeds (block_path ++ lit "/size")
              MediaDevice.conv_size w (Hread _)) as (sz & ->).
  { intros content Hc. specialize (Hint content Hc).
    unfold MediaDevice.conv_size.
    destruct (Py.int (Py.strip content)); [reflexivity | discriminate]. }
  destruct (sysfs_attr_succeeds (block_path ++ lit "/device/vendor")
              MediaDevice.conv_text w (Hread _)) as (ven & ->);
    [reflexivity|].
  destruct (sysfs_attr_succeeds (block_path ++ lit "/device/model")
              MediaDevice.conv_text w (Hread _)) as (mdl & ->);
    [reflexivity|].
  cbn [bind]. eauto.
Qed.

End Attributes.

(** C7. In every constructed device each of the four sysfs attributes
    is tri-state: unknown ([None], which is neither false, zero nor the
    empty string) when its file is absent, and otherwise the trimmed
    content of the file, read as the flag ["1"], as a sector count
    turned into bytes, or as text. *)
Theorem C7_sysfs_attributes_are_tri_state :
  forall (W : Type) (os : OS W) (w : W) (device : str) (d : MediaDevice.t),
    MediaDevice.init os device w = Ok d ->
    let block_path := lit "/sys/block/" ++ Py.basename device in
    tri_state os w (block_path ++ lit "/removable")
      (fun content => Ok (str_eqb (Py.strip content) (lit "1")))
      (MediaDevice.removable d)
    /\ tri_state os w (block_path ++ lit "/size")
         (fun content => n <- Py.int (Py.strip content) ;; Ok (n * 512)%Z)
         (MediaDevice.size d)
    /\ tri_state os w (block_path ++ lit "/device/vendor")
         (fun content => Ok (Py.strip content))
         (MediaDevice.vendor d)
    /\ tri_state os w (block_path ++ lit "/device/model")
         (fun content => Ok (Py.strip content))
         (MediaDevice.model d)
    /\ (path_exists os (block_path ++ lit "/removable") w = false ->
        MediaDevice.removable d <> Some false)
    /\ (path_exists os (block_path ++ lit "/size") w = false ->
        MediaDevice.size d <> Some 0%Z)
    /\ (path_exists os (block_path ++ lit "/device/vendor") w = false ->
        MediaDevice.vendor d <> Some [])
    /\ (path_exists os (block_path ++ lit "/device/model") w = false ->
        MediaDevice.model d <> Some []).
Proof.
  intros W os w device d H block_path.
  destruct (init_fields os device w d H)
    as (_ & _ & _ & _ & Hrem & Hsz & Hven & Hmdl).
  fold block_path in Hrem, Hsz, Hven, Hmdl.
  apply sysfs_attr_tri_state in Hrem, Hsz, Hven, Hmdl.
  repeat (split; [assumption|]).
  destruct Hrem as (Hrem & _), Hsz as (Hsz & _), Hven as (Hven & _),
           Hmdl as (Hmdl & _).
  repeat split; intro E;
    [rewrite (Hrem E) | rewrite (Hsz E) | rewrite (Hven E) | rewrite (Hmdl E)];
    discriminate.
Qed.

(** C7 on the fixture: the stick has no model file and a vendor file
    holding [SanDisk] followed by a blank and a newline. *)
Lemma C7_witness_fixture :
  MediaDevice.init (Fixture.os Fixture.on_bus) (lit "/dev/sdb") Fixture.mounted
  = Ok Fixture.sdb
  /\ MediaDevice.model Fixture.sdb = None
  /\ MediaDevice.vendor Fixture.sdb = Some (lit "SanDisk")
  /\ MediaDevice.removable Fixture.sdb = Some true.
Proof.
  pose proof (C7_sysfs_attributes_are_tri_state Fixture.world
                (Fixture.os Fixture.on_bus) Fixture.mounted (lit "/dev/sdb")
                Fixture.sdb eq_refl) as H.
  cbv zeta in H.
  destruct H as ((_ & Hrem) & _ & (_ & Hven) & (Hmdl & _) & _).
  split; [reflexivity|]. split; [apply Hmdl; reflexivity|].
  destruct (Hven eq_refl) as (cv & v & Ecv & Ev & ->).
  destruct (Hrem eq_refl) as (cr & r & Ecr & Er & ->).
  vm_compute in Ecv, Ecr. injection Ecv as <-. injection Ecr as <-.
  vm_compute in Ev, Er. injection Ev as <-. injection Er as <-.
  split; reflexivity.
Defined.

(** C8. When the size file is present and its trimmed content is the
    integer [n], the size of the constructed device is exactly
    [n * 512], over the unbounded integers. *)
Theorem C8_size_is_sectors_times_512 :
  forall (W : Type) (os : OS W) (w : W) (device content : str) (n : Z)
         (d : MediaDevice.t),
    MediaDevice.init os device w = Ok d ->
    let path := lit "/sys/block/" ++ Py.basename device ++ lit "/size" in
    path_exists os path w = true ->
    read_text os path w = Ok content ->
    Py.int (Py.strip content) = Ok n ->
    MediaDevice.size d = Some (n * 512)%Z.
Proof.
  intros W os w device content n d H path Hex Hread Hint.
  destruct (init_fields os device w d H) as (_ & _ & _ & _ & _ & Hsz & _).
  cbv zeta in Hsz. rewrite <- app_assoc in Hsz. fold path in Hsz.
  apply sysfs_attr_tri_state in Hsz. destruct Hsz as (_ & Hsz).
  destruct (Hsz Hex) as (c & v & Ec & Ev & ->).
  rewrite Hread in Ec. injection Ec as <-.
  unfold MediaDevice.conv_size in Ev. rewrite Hint in Ev. simpl in Ev.
  congruence.
Qed.

(** C8 on the fixture: 7821312 sectors are 4004511744 bytes. *)
Lemma C8_witness_fixture :
  MediaDevice.size Fixture.sdb = Some (7821312 * 512)%Z.
Proof.
  apply (C8_size_is_sectors_times_512 Fixture.world
           (Fixture.os Fixture.on_bus) Fixture.mounted (lit "/dev/sdb")
           (Fixture.unlines ["7821312"%string]) 7821312%Z Fixture.sdb);
    reflexivity.
Defined.

(** ** The digest *)

Section DigestFormat.
Import StorageMediaUsb.
Variable F : Floats.

Lemma get_size_gb_known (r : t) (n : Z) :
  MediaDevice.size (media_device r) = Some n ->
  get_size_gb F r = truediv F n (1024 ^ 3)%Z.
Proof. unfold get_size_gb. now intros ->. Qed.

Lemma get_size_gb_unknown (r : t) :
  MediaDevice.size (media_device r) = None ->
  get_size_gb F r = Raise TypeError.
Proof. unfold get_size_gb. now intros ->. Qed.

Lemma digest_needs_size_gb (r : t) (s : str) :
  digest F r = Ok s -> exists g, get_size_gb F r = Ok g.
Proof.
  unfold digest. intro H. apply bind_ok in H.
  destruct H as (g & Hg & _). eauto.
Qed.

(** The template filled with ten values. *)
Lemma format_digest_template (v0 v1 v2 v3 v4 v5 v6 v7 v8 v9 : str) :
  format digest_template [v0; v1; v2; v3; v4; v5; v6; v7; v8; v9]
  = Ok (join (lit " ")
          [ key_value "mountpoint" v0; key_value "partition" v1;
            key_value "size_bytes" v2; key_value "size_gb" v3;
            key_value "format" v4; key_value "model" v5;
            key_value "vendor" v6; key_value "device_name" v7;
            key_value "block_path" v8; key_value "media_path" v9 ]).
Proof.
  rewrite <- (app_nil_r v9) at 2. vm_compute. reflexivity.
Qed.

End DigestFormat.

(** C9. The digest is a function of the record alone, so two
    applications give the same string, and when the size is known the
    string is the ten [key:value] fields joined by single blanks, in the
    order mountpoint, partition, size_bytes, size_gb, format, model,
    vendor, device_name, block_path, media_path. *)
Theorem C9_digest_is_fixed_order_key_values :
  forall (F : Floats) (r : StorageMediaUsb.t) (n : Z) (g : float F),
    MediaDevice.size (StorageMediaUsb.media_device r) = Some n ->
    truediv F n (1024 ^ 3)%Z = Ok g ->
    let m := StorageMediaUsb.mountpoint r in
    let d := StorageMediaUsb.media_device r in
    StorageMediaUsb.digest F r
    = Ok (join (lit " ")
            [ key_value "mountpoint" (Mountpoint.mountpoint m);
              key_value "partition" (Mountpoint.partition m);
              key_value "size_bytes" (Py.str_of_int n);
              key_value "size_gb" (float_str F g);
              key_value "format" (Mountpoint.fs_format m);
              key_value "model"
                (StorageMediaUsb.str_of_opt_str (MediaDevice.model d));
              key_value "vendor"
                (StorageMediaUsb.str_of_opt_str (MediaDevice.vendor d));
              key_value "device_name" (MediaDevice.device_name d);
              key_value "block_path" (MediaDevice.block_path d);
              key_value "media_path" (MediaDevice.media_path d) ])
    /\ (forall s1 s2,
          StorageMediaUsb.digest F r = Ok s1 ->
          StorageMediaUsb.digest F r = Ok s2 -> s1 = s2).
Proof.
  intros F r n g Hn Hg m d. split.
  - unfold StorageMediaUsb.digest.
    rewrite (get_size_gb_known F r n Hn), Hg. cbn [bind].
    fold m d. unfold d at 1. rewrite Hn. cbn [StorageMediaUsb.str_of_opt_int].
    apply format_digest_template.
  - intros s1 s2 H1 H2. congruence.
Qed.

(** C9 on the fixture, with quotients printed as fractions. *)
Lemma C9_witness_fixture :
  StorageMediaUsb.digest Fixture.fractions Fixture.record
  = Ok (lit "mountpoint:/media/sdb partition:/dev/sdb1 size_bytes:4004511744 size_gb:4004511744/1073741824 format:vfat model:None vendor:SanDisk device_name:sdb block_path:/sys/block/sdb media_path:/media/sdb").
Proof.
  destruct (C9_digest_is_fixed_order_key_values Fixture.fractions
              Fixture.record 4004511744%Z (4004511744, 1073741824)%Z
              eq_refl eq_refl) as [H _].
  rewrite H. reflexivity.
Defined.

(** C10. For a record whose device has no known size, the division in
    [get_size_gb] raises, and so does [digest]: it yields no string. *)
Theorem C10_digest_raises_without_size :
  forall (F : Floats) (r : StorageMediaUsb.t),
    MediaDevice.size (StorageMediaUsb.media_device r) = None ->
    StorageMediaUsb.get_size_gb F r = Raise TypeError
    /\ StorageMediaUsb.digest F r = Raise TypeError
    /\ (forall s, StorageMediaUsb.digest F r <> Ok s).
Proof.
  intros F r H.
  assert (E : StorageMediaUsb.digest F r = Raise TypeError).
  { unfold StorageMediaUsb.digest.
    now rewrite (get_size_gb_unknown F r H). }
  split; [now apply get_size_gb_unknown|]. split; [exact E|].
  intros s Hs. congruence.
Qed.

(** C10 on the fixture without a size file. *)
Lemma C10_witness_fixture :
  StorageMediaUsb.get_size_gb Fixture.fractions Fixture.record_unsized
  = Raise TypeError
  /\ StorageMediaUsb.digest Fixture.fractions Fixture.record_unsized
     = Raise TypeError.
Proof.
  destruct (C10_digest_raises_without_size Fixture.fractions
              Fixture.record_unsized eq_refl) as (H1 & H2 & _).
  split; [exact H1 | exact H2].
Defined.

(** * Further properties of the probes *)

(** ** The candidate listing *)

Section Listing.
Context {W : Type} (os : OS W).

Lemma scan_rows_parsed (w : W) (rows : list str) (fields : list (Z * str)) :
  Forall2 (fun line f => MediaDevice.row_fields line = Ok f) rows fields ->
  forall devices,
    MediaDevice.scan_rows os rows devices w
    = Ok (devices ++ map device_path (filter (keep_row os w) fields)).
Proof.
  induction 1 as [|line f rows fields Hf _ IH]; intro devices; simpl.
  - now rewrite app_nil_r.
  - unfold MediaDevice.scan_row. rewrite Hf. cbn [bind].
    destruct f as [minor name]. unfold keep_row at 1. simpl.
    destruct (minor mod 16 =? 0)%Z; simpl; [|apply IH].
    destruct (MediaDevice.usb_attached os name w); simpl; [|apply IH].
    rewrite IH, <- app_assoc. reflexivity.
Qed.

Lemma scan_rows_raise (w : W) (rows : list str) :
  forall devices,
    Exists (fun line => is_ok (MediaDevice.row_fields line) = false) rows ->
    is_ok (MediaDevice.scan_rows os rows devices w) = false.
Proof.
  induction rows as [|line rows IH]; intros devices H; simpl.
  - inversion H.
  - destruct (MediaDevice.scan_row os line devices w) as [acc|e] eqn:E;
      [|reflexivity].
    simpl. apply IH. inversion H as [? ? Hbad | ? ? Hrest]; subst;
      [|assumption].
    unfold MediaDevice.scan_row in E.
    destruct (MediaDevice.row_fields line); discriminate.
Qed.

Lemma candidate_devices_rows (w : W) (content : str) :
  read_text os (lit "/proc/partitions") w = Ok content ->
  MediaDevice.candidate_devices os w
  = MediaDevice.scan_rows os (skipn 2 (Py.readlines content)) [] w.
Proof.
  intro H. unfold MediaDevice.candidate_devices. now rewrite H.
Qed.

Lemma candidates_nonempty (w : W) (devs : list str) :
  MediaDevice.candidate_devices os w = Ok devs ->
  Forall (fun dev => exists name, dev = lit "/dev/" ++ name) devs.
Proof.
  unfold MediaDevice.candidate_devices. intro H.
  apply bind_ok in H. destruct H as (content & _ & H).
  apply Forall_forall. intros dev Hin.
  destruct (scan_rows_origin os w _ [] devs H dev Hin)
    as [[] | (_ & _ & name & _ & _ & _ & ->)].
  now exists name.
Qed.

End Listing.

Lemma row_fields_short (line : str) :
  length (Py.split line) < 4 -> is_ok (MediaDevice.row_fields line) = false.
Proof.
  unfold MediaDevice.row_fields, Py.index. intro H.
  assert (L : length (map Py.strip (Py.split line)) < 4)
    by now rewrite length_map.
  destruct (map Py.strip (Py.split line)) as [|w0 [|w1 [|w2 [|w3 ws]]]];
    simpl in *; try reflexivity; try lia;
    destruct (Py.int w1); reflexivity.
Qed.

(** X1. A device name passes the USB test exactly when its class-block
    entry is a symbolic link whose real path contains [/usb] somewhere
    but does not start with it. *)
Theorem X1_usb_test_decides :
  forall (W : Type) (os : OS W) (device_name : str) (w : W),
    let path := lit "/sys/class/block/" ++ device_name in
    MediaDevice.usb_attached os device_name w = true
    <-> path_islink os path w = true
        /\ occurs_in (lit "/usb") (path_realpath os path w)
        /\ Py.startswith (lit "/usb") (path_realpath os path w) = false.
Proof.
  intros W os device_name w. apply usb_attached_iff.
Qed.

(** X2. When every row after the two header lines splits into at least
    four words with an integer second word, the candidates are the paths
    [/dev/<name>] of the rows whose minor number is a multiple of 16 and
    whose name passes the USB test, in the order of the listing. *)
Theorem X2_candidates_are_the_filtered_rows :
  forall (W : Type) (os : OS W) (w : W) (content : str)
         (fields : list (Z * str)),
    read_text os (lit "/proc/partitions") w = Ok content ->
    Forall2 (fun line f => MediaDevice.row_fields line = Ok f)
            (skipn 2 (Py.readlines content)) fields ->
    MediaDevice.candidate_devices os w
    = Ok (map device_path (filter (keep_row os w) fields)).
Proof.
  intros W os w content fields Hread Hrows.
  rewrite (candidate_devices_rows os w content Hread).
  now rewrite (scan_rows_parsed os w _ fields Hrows).
Qed.

Lemma X2_witness_fixture :
  MediaDevice.candidate_devices (Fixture.os Fixture.on_bus) Fixture.mounted
  = Ok [lit "/dev/sdb"].
Proof.
  apply (X2_candidates_are_the_filtered_rows Fixture.world
           (Fixture.os Fixture.on_bus) Fixture.mounted Fixture.proc_partitions
           [ (0%Z, lit "sda"); (1%Z, lit "sda1");
             (16%Z, lit "sdb"); (17%Z, lit "sdb1") ]).
  - reflexivity.
  - repeat constructor.
Defined.

(** X3. The first row that cannot be read ends the listing with its own
    exception: the rows before it, however many qualify, give no partial
    result. *)
Theorem X3_first_unreadable_row_is_fatal :
  forall (W : Type) (os : OS W) (w : W) (content : str)
         (pre post : list str) (line : str) (fields : list (Z * str))
         (e : exn),
    read_text os (lit "/proc/partitions") w = Ok content ->
    skipn 2 (Py.readlines content) = pre ++ line :: post ->
    Forall2 (fun l f => MediaDevice.row_fields l = Ok f) pre fields ->
    MediaDevice.row_fields line = Raise e ->
    MediaDevice.candidate_devices os w = Raise e
    /\ MediaDevice.probe_media_devices os w = Raise e.
Proof.
  intros W os w content pre post line fields e Hread Hrows Hpre Hline.
  assert (E : MediaDevice.candidate_devices os w = Raise e).
  { rewrite (candidate_devices_rows os w content Hread), Hrows.
    rewrite scan_rows_app, (scan_rows_parsed os w pre fields Hpre).
    cbn [bind MediaDevice.scan_rows]. unfold MediaDevice.scan_row.
    now rewrite Hline. }
  split; [exact E|]. unfold MediaDevice.probe_media_devices.
  now rewrite E.
Qed.

(** A listing whose second row holds a name where the minor number
    should be. *)
Lemma X3_witness_lab :
  let os := Lab.os (Ok (Fixture.unlines
                          [ "major minor  #blocks  name"; "";
                            "   8       16    3910656 sdb";
                            "   8       sdc   3910656 32" ]%string))
                   Lab.fdisk_first_partition (Ok []) true in
  MediaDevice.candidate_devices os Lab.empty = Raise ValueError
  /\ MediaDevice.probe_media_devices os Lab.empty = Raise ValueError.
Proof.
  cbv zeta.
  apply (X3_first_unreadable_row_is_fatal Lab.world _ Lab.empty
           (Fixture.unlines
              [ "major minor  #blocks  name"; "";
                "   8       16    3910656 sdb";
                "   8       sdc   3910656 32" ]%string)
           [lit "   8       16    3910656 sdb" ++ [nl]] []
           (lit "   8       sdc   3910656 32" ++ [nl])
           [(16%Z, lit "sdb")] ValueError).
  - reflexivity.
  - reflexivity.
  - repeat constructor.
  - reflexivity.
Defined.

(** X4. A row with fewer than four words, a blank line for instance,
    makes the whole listing fail wherever it stands after the header,
    also when its minor number would have excluded it. *)
Theorem X4_short_row_fails_the_listing :
  forall (W : Type) (os : OS W) (w : W) (content line : str),
    read_text os (lit "/proc/partitions") w = Ok content ->
    In line (skipn 2 (Py.readlines content)) ->
    length (Py.split line) < 4 ->
    is_ok (MediaDevice.candidate_devices os w) = false
    /\ is_ok (MediaDevice.probe_media_devices os w) = false.
Proof.
  intros W os w content line Hread Hin Hshort.
  assert (E : is_ok (MediaDevice.candidate_devices os w) = false).
  { rewrite (candidate_devices_rows os w content Hread).
    apply scan_rows_raise. apply Exists_exists. exists line.
    split; [assumption | now apply row_fields_short]. }
  split; [exact E|]. unfold MediaDevice.probe_media_devices.
  destruct (MediaDevice.candidate_devices os w); [discriminate | reflexivity].
Qed.

(** A listing that ends with a blank line. *)
Lemma X4_witness_lab :
  let os := Lab.os (Ok (Fixture.unlines
                          [ "major minor  #blocks  name"; "";
                            "   8       16    3910656 sdb"; "" ]%string))
                   Lab.fdisk_first_partition (Ok []) true in
  is_ok (MediaDevice.candidate_devices os Lab.empty) = false
  /\ is_ok (MediaDevice.probe_media_devices os Lab.empty) = false.
Proof.
  cbv zeta.
  apply (X4_short_row_fails_the_listing Lab.world _ Lab.empty
           (Fixture.unlines
              [ "major minor  #blocks  name"; "";
                "   8       16    3910656 sdb"; "" ]%string)
           [nl]).
  - reflexivity.
  - vm_compute. right. left. reflexivity.
  - vm_compute. lia.
Defined.

(** X5. A listing of at most two lines, the empty file included, gives
    no candidate and no device, and no error: the header lines are never
    read as rows. *)
Theorem X5_header_only_listing_is_empty :
  forall (W : Type) (os : OS W) (w : W) (content : str),
    read_text os (lit "/proc/partitions") w = Ok content ->
    length (Py.readlines content) <= 2 ->
    MediaDevice.candidate_devices os w = Ok []
    /\ MediaDevice.probe_media_devices os w = Ok [].
Proof.
  intros W os w content Hread Hlen.
  assert (E : MediaDevice.candidate_devices os w = Ok []).
  { rewrite (candidate_devices_rows os w content Hread).
    now rewrite (skipn_all2 _ Hlen). }
  split; [exact E|]. unfold MediaDevice.probe_media_devices.
  now rewrite E.
Qed.

(** A listing made of two lines that are not even a header. *)
Lemma X5_witness_lab :
  let os := Lab.os (Ok (Fixture.unlines ["not"; "a header"]%string))
                   Lab.fdisk_first_partition (Ok []) true in
  MediaDevice.candidate_devices os Lab.empty = Ok []
  /\ MediaDevice.probe_media_devices os Lab.empty = Ok [].
Proof.
  cbv zeta.
  apply (X5_header_only_listing_is_empty Lab.world _ Lab.empty
           (Fixture.unlines ["not"; "a header"]%string)).
  - reflexivity.
  - vm_compute. lia.
Defined.

(** ** Words *)

Lemma words_aux_words (s : str) :
  no_space (fst (Py.words_aux s)) = true
  /\ Forall is_word (snd (Py.words_aux s)).
Proof.
  induction s as [|c s (Hw & Hws)]; simpl; [split; [reflexivity | constructor]|].
  destruct (Py.words_aux s) as [w ws]. simpl in Hw, Hws.
  destruct (Py.isspace c) eqn:E; simpl.
  - split; [reflexivity|]. destruct w; [assumption|].
    constructor; [split; [discriminate | assumption] | assumption].
  - split; [|assumption]. now rewrite E.
Qed.

Lemma split_words (s : str) : Forall is_word (Py.split s).
Proof.
  unfold Py.split. destruct (words_aux_words s) as (Hw & Hws).
  destruct (Py.words_aux s) as [w ws]. simpl in Hw, Hws.
  destruct w; [assumption|].
  constructor; [split; [discriminate | assumption] | assumption].
Qed.


(** X6. The words of [line.split()] are non-empty and free of white
    space, so stripping each of them, as the row reader does, changes
    nothing. *)
Theorem X6_stripping_split_words_changes_nothing :
  forall (line : str),
    map Py.strip (Py.split line) = Py.split line
    /\ Forall (fun word => word <> [] /\ no_space word = true) (Py.split line).
Proof.
  intro line. split; [|apply split_words].
  pose proof (split_words line) as H.
  induction H as [|t ts (_ & Ht) _ IH]; simpl; [reflexivity|].
  now rewrite IH, (strip_no_space t Ht).
Qed.

(** ** The primary partition, its errors *)

(** X7. A primary partition, when the probe's output yields one, is a
    non-empty text free of white space. *)
Theorem X7_partition_is_a_word :
  forall (W : Type) (os : OS W) (w : W) (device : str) (d : MediaDevice.t),
    MediaDevice.init os device w = Ok d ->
    MediaDevice.partition d <> []
    /\ no_space (MediaDevice.partition d) = true.
Proof.
  intros W os w device d H.
  destruct (init_partition os w device d H) as (out & _ & Hp).
  unfold MediaDevice.partition_of_fdisk in Hp.
  apply bind_ok in Hp. destruct Hp as (line & _ & Hp).
  apply bind_ok in Hp. destruct Hp as (word & Hw & Hp).
  injection Hp as <-. unfold Py.index in Hw.
  pose proof (split_words line) as Hs.
  destruct (Py.split line) as [|t ts]; [discriminate|].
  injection Hw as <-. inversion Hs as [|? ? (Hne & Hns) _]; subst.
  now rewrite (strip_no_space t Hns).
Qed.

Lemma X7_witness_fixture :
  MediaDevice.partition Fixture.sdb <> []
  /\ no_space (MediaDevice.partition Fixture.sdb) = true.
Proof.
  apply (X7_partition_is_a_word Fixture.world (Fixture.os Fixture.on_bus)
           Fixture.mounted (lit "/dev/sdb") Fixture.sdb).
  reflexivity.
Defined.

(** X8. When the probe's output holds no newline at all, it has no
    second-to-last line: the constructor raises [IndexError] and no
    device is made, whatever the sysfs files hold. *)
Theorem X8_output_without_newline_raises :
  forall (W : Type) (os : OS W) (w : W) (device out : str),
    check_output os [lit "fdisk"; lit "-l"; device] w = Ok out ->
    no_newline out = true ->
    MediaDevice.partition_of_fdisk out = Raise IndexError
    /\ MediaDevice.init os device w = Raise IndexError.
Proof.
  intros W os w device out Hout Hnl.
  assert (E : MediaDevice.partition_of_fdisk out = Raise IndexError).
  { unfold MediaDevice.partition_of_fdisk.
    now rewrite (split_on_one_line out Hnl). }
  split; [exact E|]. unfold MediaDevice.init. rewrite Hout. cbn [bind].
  now rewrite E.
Qed.

Lemma X8_witness_lab :
  MediaDevice.init
    (Lab.os (Ok []) (fun _ => Ok (lit "fdisk: cannot open /dev/sdb"))
            (Ok []) true)
    (lit "/dev/sdb") Lab.empty
  = Raise IndexError.
Proof.
  apply (X8_output_without_newline_raises Lab.world _ Lab.empty
           (lit "/dev/sdb") (lit "fdisk: cannot open /dev/sdb"));
    reflexivity.
Defined.



(** ** Paths of a device *)

Lemma basename_aux_no_slash (name : str) :
  no_slash name = true -> Py.basename_aux name = (name, false).
Proof.
  induction name as [|c name IH]; simpl; [reflexivity|].
  intro H. apply andb_true_iff in H. destruct H as (Hc & Hn).
  apply negb_true_iff in Hc. now rewrite (IH Hn), Hc.
Qed.

Lemma basename_after_slash (dir name : str) :
  no_slash name = true -> Py.basename (dir ++ "/"%char :: name) = name.
Proof.
  intro H. unfold Py.basename.
  assert (E : Py.basename_aux (dir ++ "/"%char :: name) = (name, true)).
  { induction dir as [|c dir IH]; simpl.
    - now rewrite (basename_aux_no_slash name H).
    - now rewrite IH. }
  now rewrite E.
Qed.

Lemma basename_no_slash (p : str) : no_slash (Py.basename p) = true.
Proof.
  unfold Py.basename. induction p as [|c p IH]; simpl; [reflexivity|].
  destruct (Py.basename_aux p) as [b seen]. simpl in IH.
  destruct seen; simpl; [assumption|].
  destruct (Ascii.eqb c "/") eqn:E; simpl; [assumption|].
  now rewrite E.
Qed.

(** X10. For a device node [/dev/<name>] whose name holds no slash, the
    constructed device keeps the path it was given and derives from the
    name its sysfs directory [/sys/block/<name>] and its mount target
    [/media/<name>]. *)
Theorem X10_paths_derive_from_the_name :
  forall (W : Type) (os : OS W) (w : W) (name : str) (d : MediaDevice.t),
    no_slash name = true ->
    MediaDevice.init os (lit "/dev/" ++ name) w = Ok d ->
    MediaDevice.device d = lit "/dev/" ++ name
    /\ MediaDevice.device_name d = name
    /\ MediaDevice.block_path d = lit "/sys/block/" ++ name
    /\ MediaDevice.media_path d = lit "/media/" ++ name.
Proof.
  intros W os w name d Hn H.
  destruct (init_fields os _ w d H) as (E1 & E2 & E3 & E4 & _).
  cbv zeta in E3.
  assert (B : Py.basename (lit "/dev/" ++ name) = name)
    by apply (basename_after_slash (lit "/dev") name Hn).
  rewrite B in E2, E3, E4. auto.
Qed.

Lemma X10_witness_fixture :
  MediaDevice.device Fixture.sdb = lit "/dev/" ++ lit "sdb"
  /\ MediaDevice.device_name Fixture.sdb = lit "sdb"
  /\ MediaDevice.block_path Fixture.sdb = lit "/sys/block/" ++ lit "sdb"
  /\ MediaDevice.media_path Fixture.sdb = lit "/media/" ++ lit "sdb".
Proof.
  apply (X10_paths_derive_from_the_name Fixture.world
           (Fixture.os Fixture.on_bus) Fixture.mounted (lit "sdb") Fixture.sdb);
    reflexivity.
Defined.

(** X11. Whatever path a device is constructed from, its name holds no
    slash, and its sysfs directory and mount target are that name under
    [/sys/block/] and [/media/]. *)
Theorem X11_device_name_has_no_slash :
  forall (W : Type) (os : OS W) (w : W) (device : str) (d : MediaDevice.t),
    MediaDevice.init os device w = Ok d ->
    no_slash (MediaDevice.device_name d) = true
    /\ MediaDevice.block_path d = lit "/sys/block/" ++ MediaDevice.device_name d
    /\ MediaDevice.media_path d = lit "/media/" ++ MediaDevice.device_name d.
Proof.
  intros W os w device d H.
  destruct (init_fields os _ w d H) as (_ & E2 & E3 & E4 & _).
  cbv zeta in E3. rewrite E2, E3, E4.
  split; [apply basename_no_slash | split; reflexivity].
Qed.

Lemma X11_witness_fixture :
  no_slash (MediaDevice.device_name Fixture.sdb) = true
  /\ MediaDevice.block_path Fixture.sdb
     = lit "/sys/block/" ++ MediaDevice.device_name Fixture.sdb
  /\ MediaDevice.media_path Fixture.sdb
     = lit "/media/" ++ MediaDevice.device_name Fixture.sdb.
Proof.
  apply (X11_device_name_has_no_slash Fixture.world
           (Fixture.os Fixture.on_bus) Fixture.mounted (lit "/dev/sdb")
           Fixture.sdb).
  reflexivity.
Defined.

(** ** From candidates to devices *)

Section Building.
Context {W : Type} (os : OS W).

Lemma init_device (device : str) (w : W) (d : MediaDevice.t) :
  MediaDevice.init os device w = Ok d -> MediaDevice.device d = device.
Proof.
  intro H. now destruct (init_fields os device w d H) as (E & _).
Qed.

Lemma build_devices_built (w : W) (devices : list str) :
  Forall (fun dev => dev <> []) devices ->
  forall acc ds,
    MediaDevice.build_devices os devices acc w = Ok ds ->
    exists built,
      ds = acc ++ built
      /\ Forall2 (fun dev d => MediaDevice.init os dev w = Ok d) devices built.
Proof.
  induction 1 as [|dev devices Hne _ IH]; intros acc ds H; simpl in H.
  - injection H as <-. exists []. rewrite app_nil_r. split; constructor.
  - destruct dev as [|c dev]; [contradiction|].
    apply bind_ok in H. destruct H as (d & Hd & H).
    destruct (IH _ _ H) as (built & -> & HF).
    exists (d :: built). rewrite <- app_assoc. split; [reflexivity|].
    now constructor.
Qed.

Lemma built_paths (w : W) (devices : list str) (built : list MediaDevice.t) :
  Forall2 (fun dev d => MediaDevice.init os dev w = Ok d) devices built ->
  map MediaDevice.device built = devices
  /\ Forall (fun d => MediaDevice.init os (MediaDevice.device d) w = Ok d)
            built.
Proof.
  induction 1 as [|dev d devices built Hd _ (IH1 & IH2)]; simpl;
    [split; constructor|].
  pose proof (init_device dev w d Hd) as E. rewrite IH1, E. split;
    [reflexivity|].
  constructor; [now rewrite E | assumption].
Qed.

Lemma build_devices_raise (w : W) (pre post : list str) (dev : str) (e : exn) :
  Forall (fun p => is_ok (MediaDevice.init os p w) = true) pre ->
  dev <> [] ->
  MediaDevice.init os dev w = Raise e ->
  forall acc,
    MediaDevice.build_devices os (pre ++ dev :: post) acc w = Raise e.
Proof.
  intros Hpre Hne Hdev.
  induction Hpre as [|p pre Hp _ IH]; intro acc; simpl.
  - destruct dev; [contradiction|]. now rewrite Hdev.
  - destruct p; [apply IH|].
    destruct (MediaDevice.init os (a :: p) w); [apply IH | discriminate].
Qed.

End Building.

(** X12. The device probe returns one device per candidate path, in the
    order of the listing, each the device constructed from its path:
    none is skipped, added or reordered. *)
Theorem X12_one_device_per_candidate :
  forall (W : Type) (os : OS W) (w : W) (ds : list MediaDevice.t),
    MediaDevice.probe_media_devices os w = Ok ds ->
    MediaDevice.candidate_devices os w = Ok (map MediaDevice.device ds)
    /\ Forall (fun d => MediaDevice.init os (MediaDevice.device d) w = Ok d)
              ds.
Proof.
  intros W os w ds H. unfold MediaDevice.probe_media_devices in H.
  apply bind_ok in H. destruct H as (devs & Hc & H).
  assert (N : Forall (fun dev => dev <> []) devs).
  { eapply Forall_impl; [|apply (candidates_nonempty os w devs Hc)].
    intros dev (name & ->). discriminate. }
  destruct (build_devices_built os w devs N [] ds H) as (built & -> & HF).
  destruct (built_paths os w devs built HF) as (E1 & E2). simpl.
  rewrite E1. auto.
Qed.

Lemma X12_witness_fixture :
  MediaDevice.candidate_devices (Fixture.os Fixture.on_bus) Fixture.mounted
  = Ok (map MediaDevice.device [Fixture.sdb])
  /\ Forall (fun d => MediaDevice.init (Fixture.os Fixture.on_bus)
                        (MediaDevice.device d) Fixture.mounted = Ok d)
            [Fixture.sdb].
Proof.
  apply (X12_one_device_per_candidate Fixture.world
           (Fixture.os Fixture.on_bus) Fixture.mounted [Fixture.sdb]).
  reflexivity.
Defined.

(** X13. The first candidate whose construction raises ends the device
    probe with that exception: the devices constructed before it are not
    returned. *)
Theorem X13_first_failing_device_is_fatal :
  forall (W : Type) (os : OS W) (w : W) (pre post : list str) (dev : str)
         (e : exn),
    MediaDevice.candidate_devices os w = Ok (pre ++ dev :: post) ->
    Forall (fun p => is_ok (MediaDevice.init os p w) = true) pre ->
    MediaDevice.init os dev w = Raise e ->
    MediaDevice.probe_media_devices os w = Raise e.
Proof.
  intros W os w pre post dev e Hc Hpre Hdev.
  unfold MediaDevice.probe_media_devices. rewrite Hc. cbn [bind].
  apply build_devices_raise; [assumption | | assumption].
  pose proof (candidates_nonempty os w _ Hc) as N.
  apply Forall_elt in N. destruct N as (name & ->). discriminate.
Qed.

(** Two sticks, the probe failing on the second. *)
Lemma X13_witness_lab :
  MediaDevice.probe_media_devices
    (Lab.os (Ok (Fixture.unlines
                   [ "major minor  #blocks  name"; "";
                     "   8       16    3910656 sdb";
                     "   8       32    3910656 sdc" ]%string))
            (fun d => if Fixture.named d "/dev/sdb"
                      then Lab.fdisk_first_partition d
                      else Raise CalledProcessError)
            (Ok []) true)
    Lab.empty
  = Raise CalledProcessError.
Proof.
  apply (X13_first_failing_device_is_fatal Lab.world _ Lab.empty
           [lit "/dev/sdb"] [] (lit "/dev/sdc") CalledProcessError).
  - reflexivity.
  - repeat constructor.
  - reflexivity.
Defined.

(** ** Correlation: multiplicity *)

Section Multiplicity.
Import StorageMediaUsb.

Lemma filter_none {A : Type} (f : A -> bool) (l : list A) :
  (forall x, In x l -> f x = false) -> filter f l = [].
Proof.
  induction l as [|x l IH]; intro H; simpl; [reflexivity|].
  rewrite (H x (or_introl eq_refl)). apply IH. intros y Hy. apply H.
  now right.
Qed.

Lemma filter_disjoint_length {A : Type} (p q : A -> bool) (l : list A) :
  (forall x, p x = true -> q x = false) ->
  length (filter (fun x => p x || q x) l)
  = length (filter p l) + length (filter q l).
Proof.
  intro D. induction l as [|x l IH]; simpl; [reflexivity|].
  destruct (p x) eqn:P; simpl.
  - rewrite (D x P). simpl. now rewrite IH.
  - destruct (q x); simpl; rewrite IH; lia.
Qed.

Lemma matches_of_distinct (devs : list MediaDevice.t) (m : Mountpoint.t) :
  NoDup (map MediaDevice.partition devs) -> matches_of devs m <= 1.
Proof.
  unfold matches_of. induction devs as [|d devs IH]; simpl; [lia|].
  intro N. inversion N as [|? ? Hnotin N']; subst.
  destruct (same_partition m d) eqn:E; [|now apply IH].
  apply same_partition_eq in E. simpl.
  rewrite filter_none; [simpl; lia|].
  intros d' Hd'. destruct (same_partition m d') eqn:E'; [|reflexivity].
  apply same_partition_eq in E'. exfalso. apply Hnotin.
  rewrite E, <- E'. now apply in_map.
Qed.

Lemma correlate_spec_distinct_mounts (devs : list MediaDevice.t) :
  forall mounts,
    NoDup (map Mountpoint.partition mounts) ->
    length (correlate_spec devs mounts)
    = length (filter (fun d => existsb (fun m => same_partition m d) mounts)
                     devs).
Proof.
  induction mounts as [|m ms IH]; intro N; simpl.
  - now rewrite filter_none.
  - inversion N as [|? ? Hnotin N']; subst.
    rewrite length_app, length_map, (IH N').
    symmetry. apply filter_disjoint_length.
    intros d E. apply same_partition_eq in E.
    destruct (existsb (fun m' => same_partition m' d) ms) eqn:X;
      [|reflexivity].
    apply existsb_exists in X. destruct X as (m' & Hm' & E').
    apply same_partition_eq in E'. exfalso. apply Hnotin.
    rewrite <- E, E'. now apply in_map.
Qed.

Lemma correlate_is_spec (devs : list MediaDevice.t) (mounts : list Mountpoint.t) :
  correlate devs mounts = correlate_spec devs mounts.
Proof. unfold correlate. now rewrite correlate_loop_app. Qed.

End Multiplicity.

(** X14. When no two devices share a primary partition, every mount
    record is joined with at most one device: there are no more records
    than lines in the mount table. *)
Theorem X14_distinct_devices_give_at_most_one_record_per_mount :
  forall (devs : list MediaDevice.t) (mounts : list Mountpoint.t),
    NoDup (map MediaDevice.partition devs) ->
    length (StorageMediaUsb.correlate devs mounts) <= length mounts.
Proof.
  intros devs mounts N. rewrite correlate_is_spec, correlate_spec_length.
  induction mounts as [|m ms IH]; simpl; [lia|].
  pose proof (matches_of_distinct devs m N). lia.
Qed.

(** The stick mounted at two places gives two records, one per line. *)
Lemma X14_witness_fixture :
  length (StorageMediaUsb.correlate [Fixture.sdb]
            [Fixture.sdb_mount; Fixture.sdb_mount]) <= 2.
Proof.
  apply (X14_distinct_devices_give_at_most_one_record_per_mount
           [Fixture.sdb] [Fixture.sdb_mount; Fixture.sdb_mount]).
  constructor; [intros [] | constructor].
Defined.

(** X15. When no two mount records share a source, every device is
    joined with at most one mount record: there are no more records than
    devices. *)
Theorem X15_distinct_mounts_give_at_most_one_record_per_device :
  forall (devs : list MediaDevice.t) (mounts : list Mountpoint.t),
    NoDup (map Mountpoint.partition mounts) ->
    length (StorageMediaUsb.correlate devs mounts) <= length devs.
Proof.
  intros devs mounts N.
  rewrite correlate_is_spec, (correlate_spec_distinct_mounts devs mounts N).
  apply filter_length_le.
Qed.

(** Two devices with the same partition, one mount record: two records. *)
Lemma X15_witness_fixture :
  length (StorageMediaUsb.correlate [Fixture.sdb; Fixture.sdb_unsized]
            [Fixture.sdb_mount]) <= 2.
Proof.
  apply (X15_distinct_mounts_give_at_most_one_record_per_device
           [Fixture.sdb; Fixture.sdb_unsized] [Fixture.sdb_mount]).
  constructor; [intros [] | constructor].
Defined.

(** X16. Correlation works mount record by mount record: the records of
    a mount table made of two parts are those of the first part followed
    by those of the second, and without any device there is no record. *)
Theorem X16_correlation_goes_record_by_record :
  forall (devs : list MediaDevice.t) (mounts1 mounts2 : list Mountpoint.t),
    StorageMediaUsb.correlate devs (mounts1 ++ mounts2)
    = StorageMediaUsb.correlate devs mounts1
      ++ StorageMediaUsb.correlate devs mounts2
    /\ StorageMediaUsb.correlate [] mounts1 = [].
Proof.
  intros devs mounts1 mounts2. rewrite !correlate_is_spec. split.
  - unfold correlate_spec. apply flat_map_app.
  - unfold correlate_spec. induction mounts1; simpl; auto.
Qed.

(** ** The whole probe *)

Section WholeProbe.
Context {W : Type} (os : OS W).

Lemma probe_mountpoints_lines (w : W) (out : str) :
  check_output os [lit "mount"] w = Ok out ->
  Mountpoint.probe_mountpoints os w
  = Mountpoint.probe_loop (Py.split_on nl out) [].
Proof.
  intro H. unfold Mountpoint.probe_mountpoints. now rewrite H.
Qed.

End WholeProbe.

(** X17. A mount table with a non-empty line outside the pattern makes
    the whole USB probe raise [TypeError], before the partition listing
    is even read: whatever devices are attached, nothing is returned. *)
Theorem X17_unreadable_mount_line_fails_the_whole_probe :
  forall (W : Type) (os : OS W) (w : W) (out line : str),
    check_output os [lit "mount"] w = Ok out ->
    In line (Py.split_on nl out) ->
    line <> [] ->
    ~ matches_pattern line ->
    StorageMediaUsb.probe_storage_media_usb_devices os w = Raise TypeError.
Proof.
  intros W os w out line Hout Hin Hne Hbad.
  unfold StorageMediaUsb.probe_storage_media_usb_devices.
  rewrite (probe_mountpoints_lines os w out Hout).
  rewrite probe_loop_fatal; [reflexivity|].
  exists line. split; [|assumption].
  apply filter_In. split; [assumption|]. now destruct line.
Qed.

(** A mount table whose second line lacks the options field. *)
Lemma X17_witness_lab :
  StorageMediaUsb.probe_storage_media_usb_devices
    (Lab.os (Ok []) Lab.fdisk_first_partition
            (Ok (Fixture.unlines
                   [ "/dev/sdb1 on /media/sdb type vfat (rw)";
                     "/dev/sdc1 on /media/sdc type vfat" ]%string))
            true)
    Lab.empty
  = Raise TypeError.
Proof.
  apply (X17_unreadable_mount_line_fails_the_whole_probe Lab.world _
           Lab.empty
           (Fixture.unlines
              [ "/dev/sdb1 on /media/sdb type vfat (rw)";
                "/dev/sdc1 on /media/sdc type vfat" ]%string)
           (lit "/dev/sdc1 on /media/sdc type vfat")).
  - reflexivity.
  - vm_compute. right. left. reflexivity.
  - discriminate.
  - intro M. apply parse_complete in M. apply M. reflexivity.
Defined.

(** X18. Every record the whole probe returns joins a device of the
    device probe with a record of the mount probe that names the
    device's primary partition as its source; and with no device
    attached the result is empty. *)
Theorem X18_whole_probe_joins_the_two_probes :
  forall (W : Type) (os : OS W) (w : W) (rs : list StorageMediaUsb.t),
    StorageMediaUsb.probe_storage_media_usb_devices os w = Ok rs ->
    exists ms ds,
      Mountpoint.probe_mountpoints os w = Ok ms
      /\ MediaDevice.probe_media_devices os w = Ok ds
      /\ (forall r, In r rs
            <-> In (StorageMediaUsb.media_device r) ds
                /\ In (StorageMediaUsb.mountpoint r) ms
                /\ MediaDevice.partition (StorageMediaUsb.media_device r)
                   = Mountpoint.partition (StorageMediaUsb.mountpoint r))
      /\ (ds = [] -> rs = []).
Proof.
  intros W os w rs H.
  unfold StorageMediaUsb.probe_storage_media_usb_devices in H.
  apply bind_ok in H. destruct H as (ms & Hms & H).
  apply bind_ok in H. destruct H as (ds & Hds & H).
  injection H as <-. exists ms, ds. rewrite correlate_is_spec.
  split; [assumption|]. split; [assumption|]. split.
  - intro r. apply correlate_spec_In.
  - intros ->. unfold correlate_spec. clear Hms Hds.
    induction ms; simpl; auto.
Qed.

Lemma X18_witness_fixture :
  exists ms ds,
    Mountpoint.probe_mountpoints (Fixture.os Fixture.on_bus) Fixture.mounted
    = Ok ms
    /\ MediaDevice.probe_media_devices (Fixture.os Fixture.on_bus)
         Fixture.mounted = Ok ds
    /\ (forall r, In r [Fixture.record]
          <-> In (StorageMediaUsb.media_device r) ds
              /\ In (StorageMediaUsb.mountpoint r) ms
              /\ MediaDevice.partition (StorageMediaUsb.media_device r)
                 = Mountpoint.partition (StorageMediaUsb.mountpoint r))
    /\ (ds = [] -> [Fixture.record] = []).
Proof.
  apply (X18_whole_probe_joins_the_two_probes Fixture.world
           (Fixture.os Fixture.on_bus) Fixture.mounted [Fixture.record]).
  reflexivity.
Defined.

(** ** The report *)

Section Reporting.
Variable F : Floats.

Lemma print_digests_prefix (rs : list StorageMediaUsb.t) (lines : list str) :
  Forall2 (fun r line => StorageMediaUsb.digest F r = Ok line) rs lines ->
  forall rest printed,
    Report.print_digests F (rs ++ rest) printed
    = Report.print_digests F rest (printed ++ lines).
Proof.
  induction 1 as [|r line rs lines Hr _ IH]; intros rest printed; simpl.
  - now rewrite app_nil_r.
  - rewrite Hr, IH, <- app_assoc. reflexivity.
Qed.

End Reporting.

(** X19. When the probe succeeds and every record has a digest, the
    program prints exactly the digests of the records, one line each, in
    the order of the probe, and ends without an exception. *)
Theorem X19_report_prints_one_digest_per_record :
  forall (F : Floats) (W : Type) (os : OS W) (w : W)
         (rs : list StorageMediaUsb.t) (lines : list str),
    StorageMediaUsb.probe_storage_media_usb_devices os w = Ok rs ->
    Forall2 (fun r line => StorageMediaUsb.digest F r = Ok line) rs lines ->
    Report.main F os w = (lines, None).
Proof.
  intros F W os w rs lines Hp Hd. unfold Report.main. rewrite Hp.
  rewrite <- (app_nil_r rs).
  now rewrite (print_digests_prefix F rs lines Hd [] []).
Qed.

Lemma X19_witness_fixture :
  Report.main Fixture.fractions (Fixture.os Fixture.on_bus) Fixture.mounted
  = ([lit "mountpoint:/media/sdb partition:/dev/sdb1 size_bytes:4004511744 size_gb:4004511744/1073741824 format:vfat model:None vendor:SanDisk device_name:sdb block_path:/sys/block/sdb media_path:/media/sdb"],
     None).
Proof.
  apply (X19_report_prints_one_digest_per_record Fixture.fractions
           Fixture.world (Fixture.os Fixture.on_bus) Fixture.mounted
           [Fixture.record]).
  - reflexivity.
  - repeat constructor.
Defined.

(** X20. The report stops at the first record whose device has no known
    size: the digests of the records before it are already printed, the
    loop ends with [TypeError], and no later record is reported. *)
Theorem X20_report_stops_at_first_unsized_device :
  forall (F : Floats) (pre post : list StorageMediaUsb.t)
         (r : StorageMediaUsb.t) (lines : list str),
    Forall2 (fun r' line => StorageMediaUsb.digest F r' = Ok line) pre lines ->
    MediaDevice.size (StorageMediaUsb.media_device r) = None ->
    Report.print_digests F (pre ++ r :: post) [] = (lines, Some TypeError).
Proof.
  intros F pre post r lines Hpre Hr.
  rewrite (print_digests_prefix F pre lines Hpre). simpl.
  unfold StorageMediaUsb.digest.
  now rewrite (get_size_gb_unknown F r Hr).
Qed.

Lemma X20_witness_fixture :
  Report.print_digests Fixture.fractions
    [Fixture.record; Fixture.record_unsized; Fixture.record] []
  = ([lit "mountpoint:/media/sdb partition:/dev/sdb1 size_bytes:4004511744 size_gb:4004511744/1073741824 format:vfat model:None vendor:SanDisk device_name:sdb block_path:/sys/block/sdb media_path:/media/sdb"],
     Some TypeError).
Proof.
  apply (X20_report_stops_at_first_unsized_device Fixture.fractions
           [Fixture.record] [Fixture.record] Fixture.record_unsized).
  - repeat constructor.
  - reflexivity.
Defined.

(** ** Mounting, continued *)


(** ** The example program *)

Lemma probed_device_paths {W : Type} (os : OS W) (w : W) (d : MediaDevice.t) :
  MediaDevice.probe_media_devices os w = Ok [d] ->
  no_slash (MediaDevice.device_name d) = true
  /\ MediaDevice.media_path d = lit "/media/" ++ MediaDevice.device_name d.
Proof.
  intro H. unfold MediaDevice.probe_media_devices in H.
  apply bind_ok in H. destruct H as (devs & Hc & H).
  assert (N : Forall (fun dev => dev <> []) devs).
  { eapply Forall_impl; [|apply (candidates_nonempty os w devs Hc)].
    intros dev (name & ->). discriminate. }
  destruct (build_devices_built os w devs N [] [d] H) as (built & E & HF).
  simpl in E. subst built. inversion HF as [|dev ? ? ? Hd _]; subst.
  destruct (init_fields os dev w d Hd) as (_ & E2 & _ & E4 & _).
  rewrite E2, E4. split; [apply basename_no_slash | reflexivity].
Qed.

Section ExampleProgram.
Context {W : Type} (os : OS W) (files : Example.Files W).

Lemma endswith_slash_name (a name : str) :
  name <> [] -> no_slash name = true ->
  Example.endswith_slash (a ++ name) = false.
Proof.
  intros Hne Hns. unfold Example.endswith_slash. rewrite rev_app_distr.
  destruct (rev name) as [|c r] eqn:E.
  - apply (f_equal (@rev ascii)) in E. rewrite rev_involutive in E.
    contradiction.
  - simpl. unfold no_slash in Hns. rewrite forallb_forall in Hns.
    apply negb_true_iff, Hns, in_rev. rewrite E. now left.
Qed.

Lemma path_join_media (name : str) :
  name <> [] -> no_slash name = true ->
  Example.path_join (lit "/media/" ++ name) (lit "foo.txt")
  = lit "/media/" ++ name ++ lit "/foo.txt".
Proof.
  intros Hne Hns. unfold Example.path_join.
  rewrite (endswith_slash_name (lit "/media/") name Hne Hns).
  simpl. reflexivity.
Qed.

End ExampleProgram.

(** X22. Unless the device probe returns exactly one device, the example
    program ends with [RuntimeError] and leaves the world as it found
    it: nothing is mounted and nothing is written. *)
Theorem X22_example_wants_exactly_one_device :
  forall (W : Type) (os : OS W) (files : Example.Files W) (w : W)
         (ds : list MediaDevice.t),
    MediaDevice.probe_media_devices os w = Ok ds ->
    length ds <> 1 ->
    Example.main os files w = (w, Some Example.RuntimeError).
Proof.
  intros W os files w ds H L. unfold Example.main. rewrite H.
  destruct ds as [|d [|d' ds]]; simpl in L; [reflexivity | lia | reflexivity].
Qed.

(** No USB disk in the listing. *)
Lemma X22_witness_lab :
  Example.main
    (Lab.os (Ok (Fixture.unlines
                   [ "major minor  #blocks  name"; "";
                     "   8        1     524288 sda1" ]%string))
            Lab.fdisk_first_partition (Ok []) true)
    Lab.files Lab.empty
  = (Lab.empty, Some Example.RuntimeError).
Proof.
  apply (X22_example_wants_exactly_one_device Lab.world _ Lab.files
           Lab.empty []).
  - reflexivity.
  - discriminate.
Defined.

(** X23. With exactly one device, the example program mounts it unless
    it is mounted already, and then writes its greeting to
    [/media/<name>/foo.txt], whether or not the mount worked: the
    outcome of the mount is never looked at. *)
Theorem X23_example_writes_below_the_mount_target :
  forall (W : Type) (os : OS W) (files : Example.Files W) (w : W)
         (d : MediaDevice.t),
    MediaDevice.probe_media_devices os w = Ok [d] ->
    MediaDevice.device_name d <> [] ->
    let w1 :=
      if MediaDevice.is_mounted os d w then w
      else system os (lit "mount " ++ MediaDevice.partition d ++ lit " "
                        ++ MediaDevice.media_path d)
             (system os (lit "mkdir -p " ++ MediaDevice.media_path d) w) in
    let foo_fname := lit "/media/" ++ MediaDevice.device_name d
                     ++ lit "/foo.txt" in
    Example.main os files w
    = match Example.write_text files foo_fname Example.greeting w1 with
      | Ok w2 => (w2, None)
      | Raise e => (w1, Some (Example.Uncaught e))
      end.
Proof.
  intros W os files w d H Hne w1 foo_fname.
  destruct (probed_device_paths os w d H) as (Hns & Hmp).
  unfold Example.main. rewrite H. cbv zeta.
  rewrite Hmp, (path_join_media (MediaDevice.device_name d) Hne Hns).
  fold foo_fname.
  assert (E : (if negb (MediaDevice.is_mounted os d w)
               then snd (MediaDevice.mount_partition os d w) else w) = w1).
  { unfold w1, MediaDevice.mount_partition.
    destruct (MediaDevice.is_mounted os d w); simpl; [reflexivity|].
    now rewrite Hmp. }
  now rewrite E.
Qed.

(** One stick, on a system where the mount command fails: the file is
    written all the same, below a directory that is no mount point. *)
Lemma X23_witness_lab :
  Example.main
    (Lab.os (Ok (Fixture.unlines
                   [ "major minor  #blocks  name"; "";
                     "   8       16    3910656 sdb" ]%string))
            Lab.fdisk_first_partition (Ok []) false)
    Lab.files Lab.empty
  = ({| Lab.mounts := [];
        Lab.written := [(lit "/media/sdb/foo.txt", Example.greeting)] |},
     None).
Proof.
  pose proof (X23_example_writes_below_the_mount_target Lab.world
                (Lab.os (Ok (Fixture.unlines
                               [ "major minor  #blocks  name"; "";
                                 "   8       16    3910656 sdb" ]%string))
                        Lab.fdisk_first_partition (Ok []) false)
                Lab.files Lab.empty
                (MediaDevice.Build (lit "/dev/sdb") (lit "sdb")
                   (lit "/sys/block/sdb") (lit "/media/sdb")
                   (lit "/dev/sdb1") None None None None)
                eq_refl ltac:(discriminate)) as H.
  cbv zeta in H. rewrite H. reflexivity.
Defined.

(** ** Integers and their decimal notation *)

Section Decimal.

Lemma digits_val_acc (u : Decimal.uint) :
  forall acc,
    Py.digits_val (Z.pos acc) true (Py.uint_digits u)
    = Some (Z.pos (Pos.of_uint_acc u acc)).
Proof.
  induction u as [|u IH|u IH|u IH|u IH|u IH|u IH|u IH|u IH|u IH|u IH];
    intro acc; [reflexivity|..];
    cbn [Py.uint_digits Py.digits_val Pos.of_uint_acc];
    match goal with
    | |- context [Py.digit_val ?c] =>
        change (Py.digit_val c) with (Some (Z.of_N (N_of_ascii c) - 48)%Z)
    end; cbv iota; rewrite <- IH; f_equal;
    match goal with
    | |- context [(Z.of_N ?n - 48)%Z] =>
        let v := eval vm_compute in (Z.of_N n - 48)%Z in
        change (Z.of_N n - 48)%Z with v
    end; lia.
Qed.

Lemma digits_val_zero (u : Decimal.uint) :
  forall b, u <> Decimal.Nil \/ b = true ->
    Py.digits_val 0 b (Py.uint_digits u) = Some (Z.of_N (Pos.of_uint u)).
Proof.
  induction u as [|u IH|u IH|u IH|u IH|u IH|u IH|u IH|u IH|u IH|u IH];
    intros b H.
  - destruct H as [H | ->]; [contradiction | reflexivity].
  - cbn [Py.uint_digits Py.digits_val Pos.of_uint].
    change (Py.digit_val "0") with (Some 0%Z). cbv iota.
    apply IH. now right.
  - exact (digits_val_acc u 1).
  - exact (digits_val_acc u 2).
  - exact (digits_val_acc u 3).
  - exact (digits_val_acc u 4).
  - exact (digits_val_acc u 5).
  - exact (digits_val_acc u 6).
  - exact (digits_val_acc u 7).
  - exact (digits_val_acc u 8).
  - exact (digits_val_acc u 9).
Qed.

Lemma uint_digits_no_space (u : Decimal.uint) :
  no_space (Py.uint_digits u) = true.
Proof.
  induction u; simpl; try reflexivity; assumption.
Qed.

Lemma uint_digits_head (u : Decimal.uint) :
  u <> Decimal.Nil ->
  exists c r,
    Py.uint_digits u = c :: r
    /\ Ascii.eqb c "-" = false /\ Ascii.eqb c "+" = false.
Proof.
  destruct u; intro H; [contradiction|..]; simpl; eauto.
Qed.

Lemma str_of_int_no_space (n : Z) : no_space (Py.str_of_int n) = true.
Proof.
  unfold Py.str_of_int. destruct (Z.to_int n); simpl;
    apply uint_digits_no_space.
Qed.

Lemma str_of_int_nonempty (n : Z) : Py.str_of_int n <> [].
Proof.
  unfold Py.str_of_int. destruct n as [|p|p]; simpl; try discriminate.
  destruct (uint_digits_head (Pos.to_uint p)
              (DecimalPos.Unsigned.to_uint_nonnil p)) as (c & r & -> & _).
  discriminate.
Qed.

Lemma int_of_str_of_int (n : Z) : Py.int (Py.str_of_int n) = Ok n.
Proof.
  unfold Py.int. rewrite (strip_no_space _ (str_of_int_no_space n)).
  unfold Py.str_of_int. destruct n as [|p|p]; [reflexivity|..];
    cbn [Z.to_int];
    pose proof (digits_val_zero (Pos.to_uint p) false
                  (or_introl (DecimalPos.Unsigned.to_uint_nonnil p))) as D;
    rewrite DecimalPos.Unsigned.of_to in D.
  - destruct (uint_digits_head (Pos.to_uint p)
                (DecimalPos.Unsigned.to_uint_nonnil p))
      as (c & r & E & Hm & Hp).
    rewrite E in D |- *. cbv beta iota zeta. now rewrite Hm, Hp, D.
  - cbv beta iota zeta. change (Ascii.eqb "-" "-") with true. cbv iota.
    now rewrite D.
Qed.

Lemma strip_line (t : str) :
  t <> [] -> no_space t = true -> Py.strip (t ++ [nl]) = t.
Proof.
  intros Hne Hns. unfold Py.strip, Py.rstrip.
  assert (L : Py.lstrip (t ++ [nl]) = t ++ [nl]).
  { destruct t as [|c t]; [contradiction|]. simpl in *.
    apply andb_true_iff in Hns. destruct Hns as (Hc & _).
    apply negb_true_iff in Hc. now rewrite Hc. }
  rewrite L, rev_app_distr. simpl.
  rewrite (lstrip_no_space _ (no_space_rev _ Hns)).
  apply rev_involutive.
Qed.

End Decimal.

(** X24. Reading back the decimal notation of an integer gives that
    integer: a size file that holds the notation of [k] and a newline
    yields the size [k * 512], and the [size_bytes] text of a digest
    reads back as the size. *)
Theorem X24_decimal_notation_reads_back :
  forall (k : Z),
    Py.int (Py.str_of_int k) = Ok k
    /\ MediaDevice.conv_size (Py.str_of_int k ++ [nl]) = Ok (k * 512)%Z
    /\ Py.int (StorageMediaUsb.str_of_opt_int (Some k)) = Ok k.
Proof.
  intro k. split; [apply int_of_str_of_int|]. split.
  - unfold MediaDevice.conv_size.
    rewrite (strip_line _ (str_of_int_nonempty k) (str_of_int_no_space k)).
    now rewrite int_of_str_of_int.
  - apply int_of_str_of_int.
Qed.

(** ** Lines, round trips *)

Section Lines.

Lemma join_cons (sep x y : str) (ys : list str) :
  join sep (x :: y :: ys) = x ++ sep ++ join sep (y :: ys).
Proof. reflexivity. Qed.

Lemma join_split_on (s : str) : join [nl] (Py.split_on nl s) = s.
Proof.
  induction s as [|c s IH]; simpl; [reflexivity|].
  pose proof (split_on_nonempty nl s) as Hne.
  destruct (Ascii.eqb c nl) eqn:E.
  - apply Ascii.eqb_eq in E. subst c.
    destruct (Py.split_on nl s) as [|l ls]; [contradiction|].
    rewrite join_cons, IH. reflexivity.
  - destruct (Py.split_on nl s) as [|l ls]; [contradiction|].
    destruct ls as [|l' ls].
    + simpl in *. now rewrite IH.
    + rewrite join_cons. rewrite join_cons in IH. now rewrite <- IH.
Qed.

Lemma split_on_pieces (s : str) :
  Forall (fun piece => no_newline piece = true) (Py.split_on nl s).
Proof.
  induction s as [|c s IH]; simpl; [repeat constructor|].
  destruct (Ascii.eqb c nl) eqn:E; [now constructor|].
  destruct (Py.split_on nl s) as [|l ls]; [repeat constructor; simpl;
                                            now rewrite E|].
  inversion IH as [|? ? Hl Hls]; subst. constructor; [|assumption].
  simpl. now rewrite E, Hl.
Qed.

Lemma concat_readlines (s : str) : concat (Py.readlines s) = s.
Proof.
  induction s as [|c s IH]; simpl; [reflexivity|].
  destruct (Ascii.eqb c nl); simpl; [now rewrite IH|].
  destruct (Py.readlines s) as [|l ls]; simpl in *; now rewrite <- IH.
Qed.

Lemma readlines_lines (s : str) : Forall is_line (Py.readlines s).
Proof.
  induction s as [|c s IH]; simpl; [constructor|].
  destruct (Ascii.eqb c nl) eqn:E.
  - apply Ascii.eqb_eq in E. subst c. constructor; [|assumption].
    split; [discriminate|]. exists []. split; [reflexivity | now left].
  - assert (C : negb (Ascii.eqb c nl) = true) by now rewrite E.
    destruct (Py.readlines s) as [|l ls].
    + constructor; [|constructor]. split; [discriminate|].
      exists [c]. split; [simpl; now rewrite C | now right].
    + inversion IH as [|? ? (_ & body & Hb & Hl) Hls]; subst.
      constructor; [|assumption]. split; [discriminate|].
      exists (c :: body). split; [simpl; now rewrite C, Hb|].
      destruct Hl as [-> | ->]; [now left | now right].
Qed.

End Lines.

(** X25. Splitting the output of a command at its newlines loses
    nothing: the pieces hold no newline, there is always at least one,
    and joined again with newlines they give back the output. *)
Theorem X25_split_at_newlines_round_trip :
  forall (output : str),
    join [nl] (Py.split_on nl output) = output
    /\ Py.split_on nl output <> []
    /\ Forall (fun piece => no_newline piece = true) (Py.split_on nl output).
Proof.
  intro output. split; [apply join_split_on|].
  split; [apply split_on_nonempty | apply split_on_pieces].
Qed.

(** X26. The lines read from the partition listing, put end to end, are
    the content of the file; each is non-empty and holds one newline at
    most, as its last character. *)
Theorem X26_readlines_round_trip :
  forall (content : str),
    concat (Py.readlines content) = content
    /\ Forall is_line (Py.readlines content).
Proof.
  intro content. split; [apply concat_readlines | apply readlines_lines].
Qed.

(** ** Mount records *)

Lemma probe_loop_records (lines : list str) :
  forall acc rs,
    Mountpoint.probe_loop lines acc = Ok rs ->
    exists records,
      rs = acc ++ records
      /\ Forall2 record_of (filter nonempty lines) records.
Proof.
  induction lines as [|line lines IH]; intros acc rs H; simpl in H.
  - injection H as <-. exists []. rewrite app_nil_r. split; constructor.
  - destruct line as [|c line]; [now apply IH|].
    destruct (Mountpoint.parse (c :: line)) as [[[[p0 p1] p2] p3]|] eqn:E;
      [|discriminate].
    destruct (IH _ _ H) as (records & -> & HF).
    exists (Mountpoint.Build p0 p1 p2 p3 :: records).
    rewrite <- app_assoc. split; [reflexivity|].
    simpl. constructor; [exact E | exact HF].
Qed.

(** X27. The mount probe, when it succeeds, returns one record per
    non-empty line of the output, in order; the four fields of a record
    are non-empty and, with the words [on] and [type] and a blank
    between them, spell out its line. *)
Theorem X27_mount_records_spell_their_lines :
  forall (W : Type) (os : OS W) (w : W) (records : list Mountpoint.t),
    Mountpoint.probe_mountpoints os w = Ok records ->
    exists out,
      check_output os [lit "mount"] w = Ok out
      /\ Forall2
           (fun line r =>
              Mountpoint.partition r <> [] /\ Mountpoint.mountpoint r <> []
              /\ Mountpoint.fs_format r <> [] /\ Mountpoint.details r <> []
              /\ line_of_fields line (Mountpoint.partition r)
                   (Mountpoint.mountpoint r) (Mountpoint.fs_format r)
                   (Mountpoint.details r))
           (filter nonempty (Py.split_on nl out)) records.
Proof.
  intros W os w records H. unfold Mountpoint.probe_mountpoints in H.
  apply bind_ok in H. destruct H as (out & Hout & H).
  exists out. split; [assumption|].
  destruct (probe_loop_records _ _ _ H) as (rs & -> & HF). simpl.
  clear H. induction HF as [|line r lines rs Hr _ IH]; constructor;
    [|assumption].
  now apply parse_sound.
Qed.

Lemma X27_witness_fixture :
  exists out,
    check_output (Fixture.os Fixture.on_bus) [lit "mount"] Fixture.mounted
    = Ok out
    /\ Forall2
         (fun line r =>
            Mountpoint.partition r <> [] /\ Mountpoint.mountpoint r <> []
            /\ Mountpoint.fs_format r <> [] /\ Mountpoint.details r <> []
            /\ line_of_fields line (Mountpoint.partition r)
                 (Mountpoint.mountpoint r) (Mountpoint.fs_format r)
                 (Mountpoint.details r))
         (filter nonempty (Py.split_on nl out))
         [ Mountpoint.Build (lit "sysfs") (lit "/sys") (lit "sysfs")
             (lit "(rw,nosuid,nodev,noexec,relatime)");
           Mountpoint.Build (lit "/dev/sda1") (lit "/") (lit "ext4")
             (lit "(rw,relatime)");
           Fixture.sdb_mount ].
Proof.
  apply (X27_mount_records_spell_their_lines Fixture.world
           (Fixture.os Fixture.on_bus) Fixture.mounted).
  reflexivity.
Defined.
